(** * User-group views (zerver/views/user_groups.py)

    A shallow embedding of the request handlers that edit a user group and
    update its membership.  The handlers are thin: they validate their
    inputs, call collaborators that live elsewhere in the code base
    (group accessor, user resolver, membership queries, persistence calls)
    and raise [JsonableError] on the first violated precondition.

    The embedding keeps that shape.  A handler is a computation in a
    state-and-exception monad over a [World]: the persistent store plus the
    chronological log of collaborator calls made so far.  A raised exception
    leaves the world as it was at the point of the raise (Python does not
    undo anything on its own).  The collaborators are an interface
    ([Collaborators]); every theorem holds for all of its implementations,
    and a small relational store ([RefStore]) instantiates it for the
    concrete examples.

    What is outside the embedding: the decorators
    ([require_user_group_edit_permission], [has_request_variables]) have run
    before a handler body starts, so a handler receives the caller's
    [user_profile] and its request variables, each either supplied or left
    out; [user_group] is the record the accessor returned, and the rename
    does not touch its description. *)

From stdpp Require Import gmap strings list pretty.

Set Default Proof Using "Type".

Local Open Scope Z_scope.

(** ** Python values *)

Module Py.
(** [bool(s)] for a [str]: the empty string is the only falsy one. *)
Definition str_bool (s : string) : bool := negb (String.eqb s EmptyString).

(** [a or b] on [str] operands: [a] when it is truthy, otherwise [b]. *)
Definition or_str (a b : string) : string := if str_bool a then a else b.

(** [bool(l)] for a sequence: the empty sequence is the only falsy one. *)
Definition seq_bool {A} (l : list A) : bool :=
  match l with [] => false | _ :: _ => true end.

(** [a != b] on [str] operands. *)
Definition str_ne (a b : string) : bool := negb (String.eqb a b).

(** [x in s] for a [set] of integers. *)
Definition in_set (x : Z) (s : gset Z) : bool := bool_decide (x ∈ s).

(** [x in l] for a sequence of integers. *)
Definition in_seq (x : Z) (l : list Z) : bool := bool_decide (x ∈ l).

(** [str(n)], also what [format] substitutes for an [int]. *)
Definition str_of_int (n : Z) : string := pretty n.

(** [s] between two double-quote characters. *)
Definition dquote : Ascii.ascii := Ascii.ascii_of_nat 34.

Definition quoted (s : string) : string :=
  String dquote (s +:+ String dquote EmptyString).
End Py.

(** ** Data model *)

Definition Realm := Z.

Module UserProfile.
Record t := mk { id : Z; realm : Realm }.
End UserProfile.

Module UserGroup.
Record t := mk { id : Z; name : string; description : string; realm : Realm }.
End UserGroup.

(** [zerver.lib.exceptions.JsonableError]: an error carrying its message. *)
Record JsonableError := { msg : string }.

(** The request object is only handed on to [json_success]. *)
Inductive HttpRequest := Request (path : string).

(** A JSON object of a response, keyed by field name. *)
Abbreviation JsonDict := (gmap string string).

Record HttpResponse := { status_code : Z; content : JsonDict }.

(** [REQ(default=d)]: a request variable that was not supplied takes its
    declared default. *)
Definition REQ {A} (default : A) (supplied : option A) : A :=
  from_option (λ a, a) default supplied.

(** gettext's [_()] picks a translation of the message; the embedding
    keeps the source-language string. *)
Definition gettext (s : string) : string := s.

(** ** Collaborator calls and the world *)

Inductive Event :=
| Call_access_user_group_by_id (user_group_id : Z) (user_profile : UserProfile.t)
| Call_user_ids_to_users (user_ids : list Z) (realm : Realm)
| Call_get_direct_memberships_of_users
    (user_group : UserGroup.t) (members : list UserProfile.t)
| Call_get_user_group_direct_members (user_group : UserGroup.t)
| Call_bulk_add_members_to_user_group
    (user_group : UserGroup.t) (user_profile_ids : list Z)
| Call_remove_members_from_user_group
    (user_group : UserGroup.t) (user_profile_ids : list Z)
| Call_do_update_user_group_name (user_group : UserGroup.t) (name : string)
| Call_do_update_user_group_description
    (user_group : UserGroup.t) (description : string).

Inductive Result (A : Type) :=
| Ok (a : A)
| Raised (e : JsonableError).
Arguments Ok {A} a.
Arguments Raised {A} e.

Record World (S : Type) := mkWorld { store : S; trace : list Event }.
Arguments mkWorld {S} store trace.
Arguments store {S} w.
Arguments trace {S} w.

(** A computation: runs in a world, returns or raises, leaves a world. *)
Definition M (S A : Type) : Type := World S → Result A * World S.

Definition ret {S A} (a : A) : M S A := λ w, (Ok a, w).

Definition raise {S A} (e : JsonableError) : M S A := λ w, (Raised e, w).

Definition bind {S A B} (c : M S A) (k : A → M S B) : M S B :=
  λ w, match c w with
       | (Ok a, w') => k a w'
       | (Raised e, w') => (Raised e, w')
       end.

Declare Scope view_scope.
Delimit Scope view_scope with view.
Notation "x <- c ;; k" := (bind c (λ x, k))
  (at level 100, c at next level, right associativity) : view_scope.
Notation "c ;;; k" := (bind c (λ _, k))
  (at level 100, right associativity) : view_scope.
Open Scope view_scope.

(** [if cond: body] with no [else]. *)
Definition when {S} (cond : bool) (body : M S ()) : M S () :=
  if cond then body else ret ().

(** [for x in l: body]. *)
Fixpoint for_each {S A} (l : list A) (body : A → M S ()) : M S () :=
  match l with
  | [] => ret ()
  | x :: l' => body x ;;; for_each l' body
  end.

Definition log {S} (e : Event) (w : World S) : World S :=
  mkWorld (store w) (trace w ++ [e]).

(** The world after the calls [es], none of which wrote to the store. *)
Definition logged {S} (es : list Event) (w : World S) : World S :=
  mkWorld (store w) (trace w ++ es).

(** A collaborator that only reads the store and may raise. *)
Definition query {S A} (e : Event) (f : S → Result A) : M S A :=
  λ w, (f (store w), log e w).

(** A collaborator that writes to the store. *)
Definition command {S} (e : Event) (f : S → S) : M S () :=
  λ w, (Ok (), mkWorld (f (store w)) (trace w ++ [e])).

(** Modelled from the spec: the collaborators imported from
    [zerver.lib.user_groups], [zerver.lib.users] and
    [zerver.actions.user_groups], whose bodies are not part of this slice.
    Following the interface contracts of the specification, the group
    accessor and the user resolver read the store and fail with an error for
    an unknown or forbidden group and for an invalid user id; the two
    membership queries read the store; the bulk add, the bulk remove and the
    name and description updates write to it. *)
Class Collaborators (S : Type) := {
  sem_access_user_group_by_id : Z → UserProfile.t → S → Result UserGroup.t;
  sem_user_ids_to_users : list Z → Realm → S → Result (list UserProfile.t);
  sem_get_direct_memberships_of_users :
    UserGroup.t → list UserProfile.t → S → list Z;
  sem_get_user_group_direct_members : UserGroup.t → S → list Z;
  sem_bulk_add_members_to_user_group : UserGroup.t → list Z → S → S;
  sem_remove_members_from_user_group : UserGroup.t → list Z → S → S;
  sem_do_update_user_group_name : UserGroup.t → string → S → S;
  sem_do_update_user_group_description : UserGroup.t → string → S → S
}.

(** Modelled from the spec: [json_success] of [zerver.lib.response], the
    response serializer; a success response whose JSON object is the given
    data, the empty object when none is given. *)
Definition json_success {S} (request : HttpRequest) (data : JsonDict)
  : M S HttpResponse :=
  ret {| status_code := 200; content := data |}.

(** The empty success response, [json_success(request)]. *)
Definition empty_success : HttpResponse := {| status_code := 200; content := ∅ |}.

(** Modelled from the spec: [compose_views] of [zerver.views.streams], the
    response-composition helper.  It runs the sub-operations one after the
    other, merges the key/value pairs of each result into one object (a later
    value replaces an earlier one under the same key) and surfaces the first
    error; what earlier sub-operations wrote stays written. *)
Fixpoint compose_views_from {S} (json_dict : JsonDict)
    (thunks : list (M S HttpResponse)) : M S JsonDict :=
  match thunks with
  | [] => ret json_dict
  | thunk :: rest =>
      response <- thunk ;;
      compose_views_from (content response ∪ json_dict) rest
  end.

(** Modelled from the spec: [compose_views] starts from the empty object. *)
Definition compose_views {S} (thunks : list (M S HttpResponse)) : M S JsonDict :=
  compose_views_from ∅ thunks.

(** ** The handlers *)

Section Views.
Context {S : Type} `{!Collaborators S}.

(** The collaborators as the handlers call them: each call is logged, a
    lookup answers from the store, a persistence call writes to it. *)

Definition access_user_group_by_id (user_group_id : Z)
    (user_profile : UserProfile.t) : M S UserGroup.t :=
  query (Call_access_user_group_by_id user_group_id user_profile)
        (sem_access_user_group_by_id user_group_id user_profile).

Definition user_ids_to_users (user_ids : list Z) (realm : Realm)
  : M S (list UserProfile.t) :=
  query (Call_user_ids_to_users user_ids realm)
        (sem_user_ids_to_users user_ids realm).

Definition get_direct_memberships_of_users (user_group : UserGroup.t)
    (members : list UserProfile.t) : M S (list Z) :=
  query (Call_get_direct_memberships_of_users user_group members)
        (λ s, Ok (sem_get_direct_memberships_of_users user_group members s)).

Definition get_user_group_direct_members (user_group : UserGroup.t)
  : M S (list Z) :=
  query (Call_get_user_group_direct_members user_group)
        (λ s, Ok (sem_get_user_group_direct_members user_group s)).

Definition bulk_add_members_to_user_group (user_group : UserGroup.t)
    (user_profile_ids : list Z) : M S () :=
  command (Call_bulk_add_members_to_user_group user_group user_profile_ids)
          (sem_bulk_add_members_to_user_group user_group user_profile_ids).

Definition remove_members_from_user_group (user_group : UserGroup.t)
    (user_profile_ids : list Z) : M S () :=
  command (Call_remove_members_from_user_group user_group user_profile_ids)
          (sem_remove_members_from_user_group user_group user_profile_ids).

Definition do_update_user_group_name (user_group : UserGroup.t)
    (name : string) : M S () :=
  command (Call_do_update_user_group_name user_group name)
          (sem_do_update_user_group_name user_group name).

Definition do_update_user_group_description (user_group : UserGroup.t)
    (description : string) : M S () :=
  command (Call_do_update_user_group_description user_group description)
          (sem_do_update_user_group_description user_group description).

(** The messages of the errors the handlers raise themselves. *)
Definition msg_no_new_data : string := gettext "No new data supplied".

Definition msg_nothing_to_do : string :=
  gettext ("Nothing to do. Specify at least one of " +:+ Py.quoted "add"
             +:+ " or " +:+ Py.quoted "delete" +:+ ".").

Definition msg_already_member (user_id : Z) : string :=
  gettext "User " +:+ Py.str_of_int user_id
    +:+ " is already a member of this group".

Definition msg_no_member (member : Z) : string :=
  gettext "There is no member '" +:+ Py.str_of_int member
    +:+ "' in this user group".

Definition edit_user_group (request : HttpRequest)
    (user_profile : UserProfile.t) (user_group_id : Z)
    (name_var description_var : option string) : M S HttpResponse :=
  let name := REQ EmptyString name_var in
  let description := REQ EmptyString description_var in
  if negb (Py.str_bool (Py.or_str name description)) then
    raise {| msg := msg_no_new_data |}
  else
    user_group <- access_user_group_by_id user_group_id user_profile ;;
    when (Py.str_ne name (UserGroup.name user_group))
         (do_update_user_group_name user_group name) ;;;
    when (Py.str_ne description (UserGroup.description user_group))
         (do_update_user_group_description user_group description) ;;;
    json_success request ∅.

Definition add_members_to_group_backend (request : HttpRequest)
    (user_profile : UserProfile.t) (user_group_id : Z) (members : list Z)
  : M S HttpResponse :=
  if negb (Py.seq_bool members) then json_success request ∅
  else
    user_group <- access_user_group_by_id user_group_id user_profile ;;
    user_profiles <-
      user_ids_to_users members (UserProfile.realm user_profile) ;;
    memberships <- get_direct_memberships_of_users user_group user_profiles ;;
    let existing_member_ids : gset Z := list_to_set memberships in
    for_each user_profiles (λ user_profile,
      when (Py.in_set (UserProfile.id user_profile) existing_member_ids)
           (raise {| msg := msg_already_member (UserProfile.id user_profile) |})) ;;;
    let user_profile_ids := UserProfile.id <$> user_profiles in
    bulk_add_members_to_user_group user_group user_profile_ids ;;;
    json_success request ∅.

Definition remove_members_from_group_backend (request : HttpRequest)
    (user_profile : UserProfile.t) (user_group_id : Z) (members : list Z)
  : M S HttpResponse :=
  if negb (Py.seq_bool members) then json_success request ∅
  else
    user_profiles <-
      user_ids_to_users members (UserProfile.realm user_profile) ;;
    user_group <- access_user_group_by_id user_group_id user_profile ;;
    group_member_ids <- get_user_group_direct_members user_group ;;
    for_each members (λ member,
      when (negb (Py.in_seq member group_member_ids))
           (raise {| msg := msg_no_member member |})) ;;;
    let user_profile_ids := UserProfile.id <$> user_profiles in
    remove_members_from_user_group user_group user_profile_ids ;;;
    json_success request ∅.

(** The body of [update_user_group_backend] over the two sub-operations
    its thunks call. *)
Definition update_user_group_backend_with
    (add_op remove_op :
       HttpRequest → UserProfile.t → Z → list Z → M S HttpResponse)
    (request : HttpRequest) (user_profile : UserProfile.t)
    (user_group_id : Z) (delete_var add_var : option (list Z))
  : M S HttpResponse :=
  let delete := REQ [] delete_var in
  let add := REQ [] add_var in
  if negb (Py.seq_bool add) && negb (Py.seq_bool delete) then
    raise {| msg := msg_nothing_to_do |}
  else
    let thunks :=
      [ add_op request user_profile user_group_id add;
        remove_op request user_profile user_group_id delete ] in
    data <- compose_views thunks ;;
    json_success request data.

Definition update_user_group_backend :=
  update_user_group_backend_with
    add_members_to_group_backend remove_members_from_group_backend.
End Views.

(** ** A reference store *)

(** Modelled from the spec: the relational store behind the collaborators
    (the ORM tables of users, groups and memberships are not part of this
    slice).  A membership is a (group id, user id) row, unique per pair; a
    group is looked up by id within the caller's realm; user ids resolve to
    the user rows of the realm and an id with no such row is invalid. *)
Module RefStore.
Record Db := mkDb {
  user_rows : list UserProfile.t;
  group_rows : list UserGroup.t;
  membership_rows : list (Z * Z)
}.

(** Modelled from the spec: the group accessor, by id within the caller's
    realm; it fails when there is no such group. *)
Definition access_user_group_by_id (user_group_id : Z)
    (user_profile : UserProfile.t) (db : Db) : Result UserGroup.t :=
  match
    List.find (λ g, Z.eqb (UserGroup.id g) user_group_id
                    && Z.eqb (UserGroup.realm g) (UserProfile.realm user_profile))
              (group_rows db)
  with
  | Some g => Ok g
  | None => Raised {| msg := "Invalid user group" |}
  end.

(** Modelled from the spec: an id is valid for a realm when a user row of
    that realm carries it. *)
Definition is_user (realm : Realm) (db : Db) (user_id : Z) : bool :=
  existsb (λ u, Z.eqb (UserProfile.id u) user_id
                && Z.eqb (UserProfile.realm u) realm)
          (user_rows db).

(** Modelled from the spec: the resolver of user ids within a realm; it
    fails on the first id that is invalid there and otherwise returns the
    user rows of the requested ids, each once. *)
Definition user_ids_to_users (user_ids : list Z) (realm : Realm) (db : Db)
  : Result (list UserProfile.t) :=
  match List.find (λ i, negb (is_user realm db i)) user_ids with
  | Some missed =>
      Raised {| msg := "Invalid user ID: " +:+ Py.str_of_int missed |}
  | None =>
      Ok (List.filter (λ u, Py.in_seq (UserProfile.id u) user_ids
                            && Z.eqb (UserProfile.realm u) realm)
                      (user_rows db))
  end.

(** Modelled from the spec: the direct member ids of a group. *)
Definition get_user_group_direct_members (user_group : UserGroup.t) (db : Db)
  : list Z :=
  snd <$> List.filter (λ row, Z.eqb (fst row) (UserGroup.id user_group))
                      (membership_rows db).

(** Modelled from the spec: the ids, among the given users, of those who
    are direct members of a group. *)
Definition get_direct_memberships_of_users (user_group : UserGroup.t)
    (members : list UserProfile.t) (db : Db) : list Z :=
  List.filter (λ i, Py.in_seq i (UserProfile.id <$> members))
              (get_user_group_direct_members user_group db).

(** Modelled from the spec: the bulk add, one membership row per id. *)
Definition bulk_add_members_to_user_group (user_group : UserGroup.t)
    (user_profile_ids : list Z) (db : Db) : Db :=
  mkDb (user_rows db) (group_rows db)
       (membership_rows db
          ++ ((λ i, (UserGroup.id user_group, i)) <$> user_profile_ids)).

(** Modelled from the spec: the bulk removal of the membership rows of
    the given ids. *)
Definition remove_members_from_user_group (user_group : UserGroup.t)
    (user_profile_ids : list Z) (db : Db) : Db :=
  mkDb (user_rows db) (group_rows db)
       (List.filter (λ row, negb (Z.eqb (fst row) (UserGroup.id user_group)
                                  && Py.in_seq (snd row) user_profile_ids))
                    (membership_rows db)).

(** Modelled from the spec: an update of the row of one group. *)
Definition update_group_row (user_group_id : Z)
    (f : UserGroup.t → UserGroup.t) (db : Db) : Db :=
  mkDb (user_rows db)
       ((λ g, if Z.eqb (UserGroup.id g) user_group_id then f g else g)
          <$> group_rows db)
       (membership_rows db).

(** Modelled from the spec: the name update. *)
Definition do_update_user_group_name (user_group : UserGroup.t)
    (name : string) : Db → Db :=
  update_group_row (UserGroup.id user_group)
    (λ g, UserGroup.mk (UserGroup.id g) name (UserGroup.description g)
                       (UserGroup.realm g)).

(** Modelled from the spec: the description update. *)
Definition do_update_user_group_description (user_group : UserGroup.t)
    (description : string) : Db → Db :=
  update_group_row (UserGroup.id user_group)
    (λ g, UserGroup.mk (UserGroup.id g) (UserGroup.name g) description
                       (UserGroup.realm g)).

#[global] Instance collaborators : Collaborators Db := {|
  sem_access_user_group_by_id := access_user_group_by_id;
  sem_user_ids_to_users := user_ids_to_users;
  sem_get_direct_memberships_of_users := get_direct_memberships_of_users;
  sem_get_user_group_direct_members := get_user_group_direct_members;
  sem_bulk_add_members_to_user_group := bulk_add_members_to_user_group;
  sem_remove_members_from_user_group := remove_members_from_user_group;
  sem_do_update_user_group_name := do_update_user_group_name;
  sem_do_update_user_group_description := do_update_user_group_description
|}.

(** One realm, three users, one group of which user 5 is the only member. *)
Definition realm1 : Realm := 1.
Definition user5 : UserProfile.t := UserProfile.mk 5 realm1.
Definition user6 : UserProfile.t := UserProfile.mk 6 realm1.
Definition user7 : UserProfile.t := UserProfile.mk 7 realm1.
Definition staff : UserGroup.t :=
  UserGroup.mk 10 "staff" "Staff members" realm1.
Definition db0 : Db := mkDb [user5; user6; user7] [staff] [(10, 5)].
Definition w0 : World Db := mkWorld db0 [].
Definition req : HttpRequest := Request "/json/user_groups/10".
End RefStore.

(** ** Creating and deleting groups *)

(** Modelled from the spec: [check_add_user_group] and
    [check_delete_user_group] of [zerver.actions.user_groups], whose bodies
    are not part of this slice.  The first creates a group with its first
    members and fails on a duplicate name; the second checks that the group
    exists and may be deleted by the caller and deletes it.  Each may write
    to the store and may raise; nothing more is assumed of them, and they
    are not among the logged calls. *)
Class GroupActions (S : Type) := {
  sem_check_add_user_group :
    Realm → string → list UserProfile.t → string → S → Result () * S;
  sem_check_delete_user_group : Z → UserProfile.t → S → Result () * S
}.

(** A collaborator that may write to the store and may raise. *)
Definition action {S} (f : S → Result () * S) : M S () :=
  λ w, (fst (f (store w)), mkWorld (snd (f (store w))) (trace w)).

Section GroupViews.
Context {S : Type} `{!Collaborators S, !GroupActions S}.

Definition check_add_user_group (realm : Realm) (name : string)
    (initial_members : list UserProfile.t) (description : string) : M S () :=
  action (sem_check_add_user_group realm name initial_members description).

Definition check_delete_user_group (user_group_id : Z)
    (user_profile : UserProfile.t) : M S () :=
  action (sem_check_delete_user_group user_group_id user_profile).

(** [name] and [description] are required request variables: the handler
    body runs with both supplied. *)
Definition add_user_group (request : HttpRequest)
    (user_profile : UserProfile.t) (name : string)
    (members_var : option (list Z)) (description : string)
  : M S HttpResponse :=
  let members := REQ [] members_var in
  user_profiles <-
    user_ids_to_users members (UserProfile.realm user_profile) ;;
  check_add_user_group (UserProfile.realm user_profile) name user_profiles
    description ;;;
  json_success request ∅.

Definition delete_user_group (request : HttpRequest)
    (user_profile : UserProfile.t) (user_group_id : Z) : M S HttpResponse :=
  check_delete_user_group user_group_id user_profile ;;;
  json_success request ∅.
End GroupViews.

(** Modelled from the spec: creation and deletion on the reference store.
    A new group takes the next free id; a name already used in the realm is
    refused. *)
Module RefActions.
(** Modelled from the spec: the id after the largest one in use. *)
Definition next_group_id (db : RefStore.Db) : Z :=
  1 + foldr Z.max 0 (UserGroup.id <$> RefStore.group_rows db).

(** Modelled from the spec: group creation with its first members. *)
Definition check_add_user_group (realm : Realm) (name : string)
    (initial_members : list UserProfile.t) (description : string)
    (db : RefStore.Db) : Result () * RefStore.Db :=
  if existsb (λ g, Z.eqb (UserGroup.realm g) realm
                   && String.eqb (UserGroup.name g) name)
             (RefStore.group_rows db)
  then
    (Raised {| msg := "User group '" +:+ name +:+ "' already exists." |}, db)
  else
    let user_group :=
      UserGroup.mk (next_group_id db) name description realm in
    (Ok (),
     RefStore.bulk_add_members_to_user_group user_group
       (UserProfile.id <$> initial_members)
       (RefStore.mkDb (RefStore.user_rows db)
          (RefStore.group_rows db ++ [user_group])
          (RefStore.membership_rows db))).

(** Modelled from the spec: deletion of an accessible group and of its
    membership rows. *)
Definition check_delete_user_group (user_group_id : Z)
    (user_profile : UserProfile.t) (db : RefStore.Db)
  : Result () * RefStore.Db :=
  match RefStore.access_user_group_by_id user_group_id user_profile db with
  | Raised e => (Raised e, db)
  | Ok user_group =>
      (Ok (),
       RefStore.mkDb (RefStore.user_rows db)
         (List.filter
            (λ g, negb (Z.eqb (UserGroup.id g) (UserGroup.id user_group)))
            (RefStore.group_rows db))
         (List.filter
            (λ row, negb (Z.eqb (fst row) (UserGroup.id user_group)))
            (RefStore.membership_rows db)))
  end.

#[global] Instance group_actions : GroupActions RefStore.Db := {|
  sem_check_add_user_group := check_add_user_group;
  sem_check_delete_user_group := check_delete_user_group
|}.
End RefActions.

(** ** The log of collaborator calls *)

Lemma log_logged {S} (e : Event) (es : list Event) (w : World S) :
  log e (logged es w) = logged (es ++ [e]) w.
Proof. unfold log, logged. cbn. by rewrite <- app_assoc. Qed.

Lemma log_first {S} (e : Event) (w : World S) : log e w = logged [e] w.
Proof. done. Qed.

(** ** Python comparisons *)

Lemma str_bool_true (s : string) : Py.str_bool s = true ↔ s ≠ EmptyString.
Proof.
  unfold Py.str_bool. rewrite negb_true_iff.
  destruct (String.eqb_spec s EmptyString); naive_solver.
Qed.

Lemma str_ne_true (a b : string) : Py.str_ne a b = true ↔ a ≠ b.
Proof.
  unfold Py.str_ne. rewrite negb_true_iff.
  destruct (String.eqb_spec a b); naive_solver.
Qed.

Lemma str_ne_decide (a b : string) :
  Py.str_ne a b = if decide (a = b) then false else true.
Proof.
  destruct (decide (a = b)) as [->|Hne].
  - unfold Py.str_ne. by rewrite String.eqb_refl.
  - by apply str_ne_true.
Qed.

(** The emptiness check of [edit_user_group] lets a request through when
    its name or its description is non-empty. *)
Lemma or_str_truthy (name description : string) :
  name ≠ EmptyString ∨ description ≠ EmptyString →
  negb (Py.str_bool (Py.or_str name description)) = false.
Proof.
  intros Hsome. apply negb_false_iff. unfold Py.or_str.
  destruct (Py.str_bool name) eqn:Hname; [done|].
  apply str_bool_true. destruct Hsome as [Hn|Hd]; [|done].
  apply str_bool_true in Hn. congruence.
Qed.

(** ** Loops that raise on the first offender *)

Section Loops.
Context {S A : Type}.
Implicit Types (l : list A) (offends : A → bool) (w : World S).

(** A list with an offending element splits at its first one. *)
Lemma first_offender offends l :
  (∃ x, x ∈ l ∧ offends x = true) →
  ∃ before x after,
    l = before ++ x :: after
    ∧ Forall (λ y, offends y = false) before
    ∧ offends x = true.
Proof.
  induction l as [|a l IH]; intros (x & Hin & Hx).
  - by apply elem_of_nil in Hin.
  - destruct (offends a) eqn:Ha.
    + exists [], a, l. by repeat split.
    + destruct IH as (before & y & after & -> & Hbefore & Hy).
      { exists x. split; [|done].
        apply elem_of_cons in Hin as [->|Hin]; [congruence|done]. }
      exists (a :: before), y, after. repeat split; [|done].
      by constructor.
Qed.

Lemma for_each_first_offender offends (err : A → JsonableError)
    before x after w :
  Forall (λ y, offends y = false) before →
  offends x = true →
  for_each (before ++ x :: after) (λ y, when (offends y) (raise (err y))) w
  = (Raised (err x), w).
Proof.
  intros Hbefore Hx.
  induction Hbefore as [|y l Hy _ IH]; cbn; unfold bind at 1.
  - by rewrite Hx.
  - by rewrite Hy.
Qed.

(** The loop as a search: it raises for the first offender that
    [List.find] meets and otherwise returns; the world is the same either
    way. *)
Lemma for_each_find offends (err : A → JsonableError) l w :
  for_each l (λ y, when (offends y) (raise (err y))) w
  = match List.find offends l with
    | Some x => (Raised (err x), w)
    | None => (Ok (), w)
    end.
Proof.
  induction l as [|a l IH]; [done|].
  cbn. unfold bind at 1. by destruct (offends a).
Qed.
End Loops.

(** ** The sub-operations, step by step *)

Section Runs.
Context {S : Type} `{!Collaborators S}.
Implicit Types (w : World S) (request : HttpRequest)
  (user_profile : UserProfile.t) (user_group_id : Z) (members : list Z).

(** What a non-empty add call does, lookup by lookup. *)
Lemma add_members_run request user_profile user_group_id members w :
  members ≠ [] →
  let access := Call_access_user_group_by_id user_group_id user_profile in
  let resolve :=
    Call_user_ids_to_users members (UserProfile.realm user_profile) in
  add_members_to_group_backend request user_profile user_group_id members w
  = match sem_access_user_group_by_id user_group_id user_profile (store w)
    with
    | Raised e => (Raised e, logged [access] w)
    | Ok user_group =>
      match sem_user_ids_to_users members (UserProfile.realm user_profile)
              (store w)
      with
      | Raised e => (Raised e, logged [access; resolve] w)
      | Ok user_profiles =>
        let query :=
          Call_get_direct_memberships_of_users user_group user_profiles in
        let existing : gset Z :=
          list_to_set (sem_get_direct_memberships_of_users
                         user_group user_profiles (store w)) in
        match List.find (λ u, Py.in_set (UserProfile.id u) existing)
                user_profiles
        with
        | Some u =>
          (Raised {| msg := msg_already_member (UserProfile.id u) |},
           logged [access; resolve; query] w)
        | None =>
          let ids := UserProfile.id <$> user_profiles in
          (Ok empty_success,
           mkWorld
             (sem_bulk_add_members_to_user_group user_group ids (store w))
             (trace w
                ++ [ access; resolve; query;
                     Call_bulk_add_members_to_user_group user_group ids ]))
        end
      end
    end.
Proof.
  intros Hmembers access resolve. unfold add_members_to_group_backend.
  destruct members as [|member members']; [done|]. cbn [Py.seq_bool negb].
  unfold bind at 1, access_user_group_by_id, query. fold access.
  destruct (sem_access_user_group_by_id _ _ _) as [user_group|e]; [|done].
  unfold bind at 1, user_ids_to_users, query. cbn [store log]. fold resolve.
  destruct (sem_user_ids_to_users _ _ _) as [user_profiles|e].
  2: { by rewrite (log_first _ w), !log_logged. }
  unfold bind at 1, get_direct_memberships_of_users, query. cbn [store log].
  unfold bind at 1.
  rewrite (for_each_find
             (λ u, Py.in_set (UserProfile.id u) _)
             (λ u, {| msg := msg_already_member (UserProfile.id u) |})).
  destruct (List.find _ user_profiles) as [u|].
  - by rewrite (log_first _ w), !log_logged.
  - unfold bind, bulk_add_members_to_user_group, command, json_success,
      ret, log. cbn. by rewrite <- !app_assoc.
Qed.

(** What a non-empty remove call does, lookup by lookup. *)
Lemma remove_members_run request user_profile user_group_id members w :
  members ≠ [] →
  let resolve :=
    Call_user_ids_to_users members (UserProfile.realm user_profile) in
  let access := Call_access_user_group_by_id user_group_id user_profile in
  remove_members_from_group_backend request user_profile user_group_id
    members w
  = match sem_user_ids_to_users members (UserProfile.realm user_profile)
            (store w)
    with
    | Raised e => (Raised e, logged [resolve] w)
    | Ok user_profiles =>
      match sem_access_user_group_by_id user_group_id user_profile (store w)
      with
      | Raised e => (Raised e, logged [resolve; access] w)
      | Ok user_group =>
        let query := Call_get_user_group_direct_members user_group in
        let group_member_ids :=
          sem_get_user_group_direct_members user_group (store w) in
        match List.find (λ member, negb (Py.in_seq member group_member_ids))
                members
        with
        | Some member =>
          (Raised {| msg := msg_no_member member |},
           logged [resolve; access; query] w)
        | None =>
          let ids := UserProfile.id <$> user_profiles in
          (Ok empty_success,
           mkWorld
             (sem_remove_members_from_user_group user_group ids (store w))
             (trace w
                ++ [ resolve; access; query;
                     Call_remove_members_from_user_group user_group ids ]))
        end
      end
    end.
Proof.
  intros Hmembers resolve access. unfold remove_members_from_group_backend.
  destruct members as [|member members']; [done|]. cbn [Py.seq_bool negb].
  unfold bind at 1, user_ids_to_users, query. fold resolve.
  destruct (sem_user_ids_to_users _ _ _) as [user_profiles|e]; [|done].
  unfold bind at 1, access_user_group_by_id, query. cbn [store log].
  fold access.
  destruct (sem_access_user_group_by_id _ _ _) as [user_group|e].
  2: { by rewrite (log_first _ w), !log_logged. }
  unfold bind at 1, get_user_group_direct_members, query. cbn [store log].
  unfold bind at 1.
  rewrite (for_each_find
             (λ member, negb (Py.in_seq member _))
             (λ member, {| msg := msg_no_member member |})).
  destruct (List.find _ (member :: members')) as [offender|].
  - by rewrite (log_first _ w), !log_logged.
  - unfold bind, remove_members_from_user_group, command, json_success,
      ret, log. cbn. by rewrite <- !app_assoc.
Qed.

(** A sub-operation that raises has written nothing. *)
Lemma add_members_raised_store request user_profile user_group_id
    members w e w' :
  add_members_to_group_backend request user_profile user_group_id members w
    = (Raised e, w') →
  store w' = store w.
Proof.
  destruct members as [|member members']; [done|].
  rewrite add_members_run by done. cbv zeta.
  repeat case_match; intros [= <- <-]; done.
Qed.

Lemma remove_members_raised_store request user_profile user_group_id
    members w e w' :
  remove_members_from_group_backend request user_profile user_group_id
    members w = (Raised e, w') →
  store w' = store w.
Proof.
  destruct members as [|member members']; [done|].
  rewrite remove_members_run by done. cbv zeta.
  repeat case_match; intros [= <- <-]; done.
Qed.

(** The membership update runs its first thunk, then its second in the
    world the first one left, and stops at the first error. *)
Lemma update_user_group_backend_with_run add_op remove_op request
    user_profile user_group_id delete_var add_var w :
  let delete := REQ [] delete_var in
  let add := REQ [] add_var in
  add ≠ [] ∨ delete ≠ [] →
  update_user_group_backend_with add_op remove_op request user_profile
    user_group_id delete_var add_var w
  = match add_op request user_profile user_group_id add w with
    | (Raised e, w1) => (Raised e, w1)
    | (Ok added, w1) =>
      match remove_op request user_profile user_group_id delete w1 with
      | (Raised e, w2) => (Raised e, w2)
      | (Ok removed, w2) =>
        (Ok {| status_code := 200;
               content := content removed ∪ (content added ∪ ∅) |}, w2)
      end
    end.
Proof.
  intros delete add Hsome. unfold update_user_group_backend_with.
  fold delete add.
  assert (negb (Py.seq_bool add) && negb (Py.seq_bool delete) = false)
    as ->.
  { destruct add; [|done]. destruct delete; [|done].
    by destruct Hsome. }
  unfold compose_views, compose_views_from, bind, json_success, ret.
  destruct (add_op _ _ _ _ _) as [[added|e] w1]; [|done].
  by destruct (remove_op _ _ _ _ _) as [[removed|e] w2].
Qed.
End Runs.

(** ** Properties of the handlers *)

(** Runs the conditional updates of [edit_user_group] once their conditions
    are decided. *)
Ltac run_updates :=
  unfold when, bind, do_update_user_group_name,
    do_update_user_group_description, command, json_success, ret, log;
  simpl.

Section Properties.
Context {S : Type} `{!Collaborators S}.
Implicit Types (w : World S) (request : HttpRequest)
  (user_profile : UserProfile.t) (user_group_id : Z).

(** C1.  An edit request whose name and description are both the empty
    string (left out, or supplied empty) raises "No new data supplied".
    The world it leaves is the world it started in: nothing was logged, so
    the group was not even looked up, and the store is untouched, whatever
    name and description the group has there. *)
Theorem edit_user_group_no_new_data request user_profile user_group_id
    name_var description_var w :
  REQ EmptyString name_var = EmptyString →
  REQ EmptyString description_var = EmptyString →
  edit_user_group request user_profile user_group_id name_var description_var w
  = (Raised {| msg := "No new data supplied" |}, w).
Proof.
  intros Hname Hdescription. unfold edit_user_group.
  by rewrite Hname, Hdescription.
Qed.

(** C2.  A membership update whose add and delete lists are both empty
    raises "Nothing to do" and leaves the world as it was.  This is so for
    any pair of sub-operations put in the thunks, also ones that would
    write or log as soon as they ran: neither of them is run. *)
Theorem update_user_group_backend_nothing_to_do request user_profile
    user_group_id delete_var add_var w :
  REQ [] add_var = [] →
  REQ [] delete_var = [] →
  update_user_group_backend request user_profile user_group_id
    delete_var add_var w
  = (Raised {| msg := msg_nothing_to_do |}, w)
  ∧ ∀ add_op remove_op,
      update_user_group_backend_with add_op remove_op request user_profile
        user_group_id delete_var add_var w
      = (Raised {| msg := msg_nothing_to_do |}, w).
Proof.
  intros Hadd Hdelete.
  assert (∀ add_op remove_op,
      update_user_group_backend_with add_op remove_op request user_profile
        user_group_id delete_var add_var w
      = (Raised {| msg := msg_nothing_to_do |}, w)) as Hany.
  { intros add_op remove_op. unfold update_user_group_backend_with.
    by rewrite Hadd, Hdelete. }
  split; [apply Hany | exact Hany].
Qed.

(** C7.  With an empty member list both sub-operations return the empty
    success response at once: no collaborator is called (nothing is
    logged, so neither the group nor the users are resolved) and the
    store is untouched. *)
Theorem empty_members_is_noop request user_profile user_group_id w :
  add_members_to_group_backend request user_profile user_group_id [] w
  = (Ok empty_success, w)
  ∧ remove_members_from_group_backend request user_profile user_group_id [] w
    = (Ok empty_success, w).
Proof. split; reflexivity. Qed.

(** C3.  Let a non-empty add call resolve its group and its users, and let
    some resolved user be among the direct memberships found for them.
    Then the resolved list splits at its first such user, the call raises
    the already-a-member error for that user, and it leaves the store as it
    was: the three lookups are all that happened, the bulk add was never
    called, so neither the offender nor any other requested user was
    added. *)
Theorem add_members_already_member request user_profile user_group_id
    members w user_group user_profiles :
  members ≠ [] →
  sem_access_user_group_by_id user_group_id user_profile (store w)
    = Ok user_group →
  sem_user_ids_to_users members (UserProfile.realm user_profile) (store w)
    = Ok user_profiles →
  let existing :=
    sem_get_direct_memberships_of_users user_group user_profiles (store w) in
  (∃ u, u ∈ user_profiles ∧ UserProfile.id u ∈ existing) →
  ∃ before offender after,
    user_profiles = before ++ offender :: after
    ∧ Forall (λ u, UserProfile.id u ∉ existing) before
    ∧ UserProfile.id offender ∈ existing
    ∧ add_members_to_group_backend request user_profile user_group_id
        members w
      = (Raised {| msg := msg_already_member (UserProfile.id offender) |},
         logged
           [ Call_access_user_group_by_id user_group_id user_profile;
             Call_user_ids_to_users members (UserProfile.realm user_profile);
             Call_get_direct_memberships_of_users user_group user_profiles ]
           w).
Proof.
  intros Hmembers Hgroup Husers existing Hsome.
  set (offends := λ u : UserProfile.t,
         Py.in_set (UserProfile.id u) (list_to_set existing)).
  assert (∀ u, offends u = true ↔ UserProfile.id u ∈ existing) as Hoffends.
  { intros u. unfold offends, Py.in_set.
    by rewrite bool_decide_eq_true, elem_of_list_to_set. }
  destruct (first_offender offends user_profiles)
    as (before & offender & after & Hsplit & Hbefore & Hoffender).
  { destruct Hsome as (u & Hin & Hu). exists u. by rewrite Hoffends. }
  exists before, offender, after. split_and!; [done| |by apply Hoffends|].
  - eapply Forall_impl; [exact Hbefore|]. intros u Hu.
    rewrite <- Hoffends. by rewrite Hu.
  - unfold add_members_to_group_backend.
    destruct members as [|member members']; [done|]. cbn [Py.seq_bool negb].
    unfold bind at 1, access_user_group_by_id, query. rewrite Hgroup.
    unfold bind at 1, user_ids_to_users, query. cbn [store log].
    rewrite Husers.
    unfold bind at 1, get_direct_memberships_of_users, query. cbn [store log].
    fold existing. unfold bind at 1. rewrite Hsplit.
    rewrite (for_each_first_offender offends
               (λ u, {| msg := msg_already_member (UserProfile.id u) |}))
      by done.
    by rewrite (log_first _ w), !log_logged.
Qed.

(** C4.  Let the group of a remove call resolve, and let some requested id
    be missing from the group's direct member ids.  Then the call raises and
    removes nobody: the store is as it was and the bulk removal is never
    called.  Which error it raises depends on the user resolution, which
    runs first.  If the requested ids resolve, the requested list splits at
    its first missing id and the error is the no-member error for that id,
    after the three lookups.  If they do not resolve, the error is the
    resolver's, and the user resolution is the only call made. *)
Theorem remove_members_no_member request user_profile user_group_id
    members w user_group :
  sem_access_user_group_by_id user_group_id user_profile (store w)
    = Ok user_group →
  let group_member_ids :=
    sem_get_user_group_direct_members user_group (store w) in
  let resolve :=
    Call_user_ids_to_users members (UserProfile.realm user_profile) in
  (∃ member, member ∈ members ∧ member ∉ group_member_ids) →
  (∀ user_profiles,
     sem_user_ids_to_users members (UserProfile.realm user_profile) (store w)
       = Ok user_profiles →
     ∃ before offender after,
       members = before ++ offender :: after
       ∧ Forall (λ member, member ∈ group_member_ids) before
       ∧ (offender ∉ group_member_ids)
       ∧ remove_members_from_group_backend request user_profile
           user_group_id members w
         = (Raised {| msg := msg_no_member offender |},
            logged
              [ resolve;
                Call_access_user_group_by_id user_group_id user_profile;
                Call_get_user_group_direct_members user_group ]
              w))
  ∧ (∀ e,
       sem_user_ids_to_users members (UserProfile.realm user_profile)
         (store w) = Raised e →
       remove_members_from_group_backend request user_profile user_group_id
         members w
       = (Raised e, logged [resolve] w)).
Proof.
  intros Hgroup group_member_ids resolve Hsome.
  assert (members ≠ []) as Hmembers.
  { destruct Hsome as (member & Hin & _). intros ->.
    by apply elem_of_nil in Hin. }
  split.
  - intros user_profiles Husers.
    set (offends := λ member : Z, negb (Py.in_seq member group_member_ids)).
    assert (∀ member, offends member = true ↔ member ∉ group_member_ids)
      as Hoffends.
    { intros member. unfold offends, Py.in_seq.
      by rewrite negb_true_iff, bool_decide_eq_false. }
    destruct (first_offender offends members)
      as (before & offender & after & Hsplit & Hbefore & Hoffender).
    { destruct Hsome as (member & Hin & Hmember). exists member.
      by rewrite Hoffends. }
    exists before, offender, after. split_and!; [done| |by apply Hoffends|].
    + eapply Forall_impl; [exact Hbefore|]. intros member Hmember.
      destruct (decide (member ∈ group_member_ids)) as [|Hnot]; [done|].
      apply Hoffends in Hnot. congruence.
    + unfold remove_members_from_group_backend.
      destruct members as [|member members']; [done|].
      cbn [Py.seq_bool negb].
      unfold bind at 1, user_ids_to_users, query. fold resolve.
      rewrite Husers.
      unfold bind at 1, access_user_group_by_id, query. cbn [store log].
      rewrite Hgroup.
      unfold bind at 1, get_user_group_direct_members, query.
      cbn [store log]. fold group_member_ids. unfold bind at 1.
      rewrite Hsplit.
      rewrite (for_each_first_offender offends
                 (λ member, {| msg := msg_no_member member |})) by done.
      by rewrite (log_first _ w), !log_logged.
  - intros e Husers. unfold remove_members_from_group_backend.
    destruct members as [|member members']; [done|].
    cbn [Py.seq_bool negb].
    unfold bind at 1, user_ids_to_users, query. fold resolve.
    by rewrite Husers.
Qed.

(** C5.  Let an edit request carry a non-empty name or description and let
    its group resolve.  Then the request succeeds, and after the lookup it
    calls the rename exactly when the supplied name differs from the
    group's name and then the redescription exactly when the supplied
    description differs from the group's description; the store is changed
    by those calls and by nothing else.  In particular, with the group's
    own name and a non-empty description that differs from the group's,
    the one call after the lookup is the redescription, and no rename
    happens. *)
Theorem edit_user_group_updates_what_differs request user_profile
    user_group_id name_var description_var w user_group :
  let name := REQ EmptyString name_var in
  let description := REQ EmptyString description_var in
  name ≠ EmptyString ∨ description ≠ EmptyString →
  sem_access_user_group_by_id user_group_id user_profile (store w)
    = Ok user_group →
  let same_name := bool_decide (name = UserGroup.name user_group) in
  let same_description :=
    bool_decide (description = UserGroup.description user_group) in
  let rename_calls :=
    if same_name then []
    else [Call_do_update_user_group_name user_group name] in
  let redescribe_calls :=
    if same_description then []
    else [Call_do_update_user_group_description user_group description] in
  let renamed (s : S) :=
    if same_name then s
    else sem_do_update_user_group_name user_group name s in
  let redescribed (s : S) :=
    if same_description then s
    else sem_do_update_user_group_description user_group description s in
  edit_user_group request user_profile user_group_id name_var description_var w
  = (Ok empty_success,
     mkWorld (redescribed (renamed (store w)))
             (trace w
                ++ [Call_access_user_group_by_id user_group_id user_profile]
                ++ rename_calls ++ redescribe_calls))
  ∧ (name = UserGroup.name user_group →
     description ≠ EmptyString →
     description ≠ UserGroup.description user_group →
     edit_user_group request user_profile user_group_id
       name_var description_var w
     = (Ok empty_success,
        mkWorld
          (sem_do_update_user_group_description user_group description
             (store w))
          (trace w
             ++ [ Call_access_user_group_by_id user_group_id user_profile;
                  Call_do_update_user_group_description
                    user_group description ]))).
Proof.
  intros name description Hsome Hgroup same_name same_description
    rename_calls redescribe_calls renamed redescribed.
  assert (edit_user_group request user_profile user_group_id
            name_var description_var w
          = (Ok empty_success,
             mkWorld (redescribed (renamed (store w)))
               (trace w
                  ++ [Call_access_user_group_by_id user_group_id user_profile]
                  ++ rename_calls ++ redescribe_calls))) as Hrun.
  { unfold edit_user_group. fold name description.
    rewrite (or_str_truthy name description Hsome).
    unfold bind at 1, access_user_group_by_id, query. rewrite Hgroup.
    rewrite !str_ne_decide.
    subst rename_calls redescribe_calls renamed redescribed
      same_name same_description.
    rewrite !bool_decide_decide.
    destruct (decide (name = UserGroup.name user_group));
      destruct (decide (description = UserGroup.description user_group));
      run_updates; by rewrite <- ?app_assoc. }
  split; [exact Hrun|].
  intros Hn _ Hd. rewrite Hrun.
  subst rename_calls redescribe_calls renamed redescribed
    same_name same_description.
  rewrite !bool_decide_decide.
  destruct (decide (name = UserGroup.name user_group)); [|done].
  by destruct (decide (description = UserGroup.description user_group)).
Qed.

(** C8.  Let the group of an edit request resolve.  If the request leaves
    the name out and supplies a non-empty description while the group's
    name is non-empty, the call right after the lookup is the rename with
    the empty string as the new name, and the store is written with it: the
    group is renamed to the empty string, before the description is updated
    if it differs.  If the request leaves the description out and supplies a
    non-empty name while the group's description is non-empty, its last call
    is the redescription with the empty string, and the store is written
    with it: the description is cleared, after the name is updated if it
    differs.  Both requests succeed. *)
Theorem edit_user_group_omitted_field_is_cleared request user_profile
    user_group_id w user_group :
  sem_access_user_group_by_id user_group_id user_profile (store w)
    = Ok user_group →
  let access := Call_access_user_group_by_id user_group_id user_profile in
  (∀ description,
     description ≠ EmptyString →
     UserGroup.name user_group ≠ EmptyString →
     let same_description :=
       bool_decide (description = UserGroup.description user_group) in
     let renamed :=
       sem_do_update_user_group_name user_group EmptyString (store w) in
     edit_user_group request user_profile user_group_id
       None (Some description) w
     = (Ok empty_success,
        mkWorld
          (if same_description then renamed
           else sem_do_update_user_group_description user_group description
                  renamed)
          (trace w
             ++ [ access;
                  Call_do_update_user_group_name user_group EmptyString ]
             ++ (if same_description then []
                 else [Call_do_update_user_group_description
                         user_group description]))))
  ∧ (∀ name,
       name ≠ EmptyString →
       UserGroup.description user_group ≠ EmptyString →
       let same_name := bool_decide (name = UserGroup.name user_group) in
       let renamed :=
         if same_name then store w
         else sem_do_update_user_group_name user_group name (store w) in
       edit_user_group request user_profile user_group_id
         (Some name) None w
       = (Ok empty_success,
          mkWorld
            (sem_do_update_user_group_description user_group EmptyString
               renamed)
            (trace w
               ++ [access]
               ++ (if same_name then []
                   else [Call_do_update_user_group_name user_group name])
               ++ [Call_do_update_user_group_description
                     user_group EmptyString]))).
Proof.
  intros Hgroup access. split.
  - intros description Hd Hn same_description renamed.
    subst same_description renamed.
    unfold edit_user_group. cbn [REQ from_option].
    rewrite (or_str_truthy EmptyString description) by tauto.
    unfold bind at 1, access_user_group_by_id, query. rewrite Hgroup.
    rewrite !str_ne_decide, bool_decide_decide.
    destruct (decide (EmptyString = UserGroup.name user_group)) as [Heq|_];
      [congruence|].
    destruct (decide (description = UserGroup.description user_group));
      run_updates; by rewrite <- !app_assoc.
  - intros name Hn Hd same_name renamed. subst same_name renamed.
    unfold edit_user_group. cbn [REQ from_option].
    rewrite (or_str_truthy name EmptyString) by tauto.
    unfold bind at 1, access_user_group_by_id, query. rewrite Hgroup.
    rewrite !str_ne_decide, bool_decide_decide.
    destruct (decide (EmptyString = UserGroup.description user_group))
      as [Heq|_]; [congruence|].
    destruct (decide (name = UserGroup.name user_group));
      run_updates; by rewrite <- !app_assoc.
Qed.

(** C9.  The two sub-operations look things up in opposite orders.  A
    non-empty add call asks for the group first: its first new event is the
    group lookup, a failing group lookup ends the call with the group's
    error before any user id is resolved, and only after the group is
    found does the user resolution follow.  A non-empty remove call asks
    for the users first: its first new event is the user resolution, a
    failing user resolution ends the call with the user error before the
    group is looked up, and only after the users are resolved does the
    group lookup follow.  So with a bad group id and a bad user id
    together, add reports the group error and remove the user error. *)
Theorem add_and_remove_resolve_in_opposite_orders request user_profile
    user_group_id members w :
  members ≠ [] →
  let access := Call_access_user_group_by_id user_group_id user_profile in
  let resolve :=
    Call_user_ids_to_users members (UserProfile.realm user_profile) in
  let added :=
    add_members_to_group_backend request user_profile user_group_id
      members w in
  let removed :=
    remove_members_from_group_backend request user_profile user_group_id
      members w in
  (∃ rest, trace (snd added) = trace w ++ access :: rest)
  ∧ (∃ rest, trace (snd removed) = trace w ++ resolve :: rest)
  ∧ (∀ e_group,
       sem_access_user_group_by_id user_group_id user_profile (store w)
         = Raised e_group →
       added = (Raised e_group, logged [access] w))
  ∧ (∀ e_user,
       sem_user_ids_to_users members (UserProfile.realm user_profile)
         (store w) = Raised e_user →
       removed = (Raised e_user, logged [resolve] w))
  ∧ (∀ user_group,
       sem_access_user_group_by_id user_group_id user_profile (store w)
         = Ok user_group →
       ∃ rest, trace (snd added) = trace w ++ access :: resolve :: rest)
  ∧ (∀ user_profiles,
       sem_user_ids_to_users members (UserProfile.realm user_profile)
         (store w) = Ok user_profiles →
       ∃ rest, trace (snd removed) = trace w ++ resolve :: access :: rest).
Proof.
  intros Hmembers access resolve added removed. subst added removed.
  rewrite add_members_run, remove_members_run by done. cbv zeta.
  fold access resolve.
  destruct (sem_access_user_group_by_id _ _ _) as [user_group|e_group];
    destruct (sem_user_ids_to_users _ _ _) as [user_profiles|e_user];
    repeat case_match; cbn [snd trace logged];
    split_and!; try done; try by eexists.
  all: intros; simplify_eq; try done; by eexists.
Qed.

(** C10.  A membership update with something to do runs the add
    sub-operation first and the remove sub-operation second, in the world
    the add left; this holds for whatever the two thunks call.  So when
    the add raises, the update raises the same error in the world the add
    left, where nothing was written and no call of the bulk removal (nor
    any other call of the remove sub-operation) was logged.  When the add
    returns and the remove then raises, the update raises the remove's
    error and the store is the one the add left. *)
Theorem update_runs_add_before_remove request user_profile user_group_id
    delete_var add_var w :
  let delete := REQ [] delete_var in
  let add := REQ [] add_var in
  add ≠ [] ∨ delete ≠ [] →
  (∀ add_op remove_op,
     update_user_group_backend_with add_op remove_op request user_profile
       user_group_id delete_var add_var w
     = match add_op request user_profile user_group_id add w with
       | (Raised e, w1) => (Raised e, w1)
       | (Ok added, w1) =>
         match remove_op request user_profile user_group_id delete w1 with
         | (Raised e, w2) => (Raised e, w2)
         | (Ok removed, w2) =>
           (Ok {| status_code := 200;
                  content := content removed ∪ (content added ∪ ∅) |}, w2)
         end
       end)
  ∧ (∀ e w1,
       add_members_to_group_backend request user_profile user_group_id
         add w = (Raised e, w1) →
       update_user_group_backend request user_profile user_group_id
         delete_var add_var w = (Raised e, w1)
       ∧ store w1 = store w
       ∧ ∃ calls,
           trace w1 = trace w ++ calls
           ∧ Forall (λ call,
                       match call with
                       | Call_remove_members_from_user_group _ _
                       | Call_get_user_group_direct_members _ => False
                       | _ => True
                       end) calls)
  ∧ (∀ added w1 e w2,
       add_members_to_group_backend request user_profile user_group_id
         add w = (Ok added, w1) →
       remove_members_from_group_backend request user_profile user_group_id
         delete w1 = (Raised e, w2) →
       update_user_group_backend request user_profile user_group_id
         delete_var add_var w = (Raised e, w2)
       ∧ store w2 = store w1).
Proof.
  intros delete add Hsome. split_and!.
  - intros add_op remove_op.
    by apply update_user_group_backend_with_run.
  - intros e w1 Hadd. split_and!.
    + unfold update_user_group_backend.
      rewrite update_user_group_backend_with_run by done.
      fold add. by rewrite Hadd.
    + by eapply add_members_raised_store.
    + destruct add as [|member members'] eqn:Heq; [done|].
      rewrite add_members_run in Hadd by done. cbv zeta in Hadd.
      repeat case_match; simplify_eq; eexists;
        (split; [reflexivity|]); by repeat constructor.
  - intros added w1 e w2 Hadd Hremove. split.
    + unfold update_user_group_backend.
      rewrite update_user_group_backend_with_run by done.
      fold add delete. by rewrite Hadd, Hremove.
    + by eapply remove_members_raised_store.
Qed.

(** C6.  In a membership update with something to do, an error of either
    sub-operation is the outcome of the whole request: the update raises
    that error and returns no response, so it returns a response only when
    both sub-operations returned one.  Nothing is undone: when the remove
    raises after the add returned, the store is the one the add left, and
    for a non-empty add list that is the store after the bulk add of the
    resolved users, whose call stays in the log. *)
Theorem update_fails_as_a_whole_without_rollback request user_profile
    user_group_id delete_var add_var w :
  let delete := REQ [] delete_var in
  let add := REQ [] add_var in
  let update :=
    update_user_group_backend request user_profile user_group_id
      delete_var add_var w in
  add ≠ [] ∨ delete ≠ [] →
  (∀ e w1,
     add_members_to_group_backend request user_profile user_group_id
       add w = (Raised e, w1) →
     update = (Raised e, w1))
  ∧ (∀ added w1 e w2,
       add_members_to_group_backend request user_profile user_group_id
         add w = (Ok added, w1) →
       remove_members_from_group_backend request user_profile user_group_id
         delete w1 = (Raised e, w2) →
       update = (Raised e, w2)
       ∧ store w2 = store w1
       ∧ (add ≠ [] →
          ∃ user_group user_profiles,
            let ids := UserProfile.id <$> user_profiles in
            store w2
            = sem_bulk_add_members_to_user_group user_group ids (store w)
            ∧ Call_bulk_add_members_to_user_group user_group ids
              ∈ trace w2))
  ∧ (∀ response w2,
       update = (Ok response, w2) →
       ∃ added w1 removed,
         add_members_to_group_backend request user_profile user_group_id
           add w = (Ok added, w1)
         ∧ remove_members_from_group_backend request user_profile
             user_group_id delete w1 = (Ok removed, w2)).
Proof.
  intros delete add update Hsome. subst update.
  unfold update_user_group_backend.
  rewrite update_user_group_backend_with_run by done. fold add delete.
  split_and!.
  - intros e w1 Hadd. by rewrite Hadd.
  - intros added w1 e w2 Hadd Hremove. rewrite Hadd, Hremove.
    pose proof (remove_members_raised_store _ _ _ _ _ _ _ Hremove) as Hstore.
    split_and!; [done..|]. intros Hnonempty.
    assert (∃ calls, trace w2 = trace w1 ++ calls) as [calls Hcalls].
    { destruct delete as [|member members'] eqn:Heq; [done|].
      rewrite remove_members_run in Hremove by done. cbv zeta in Hremove.
      repeat case_match; simplify_eq; by eexists. }
    rewrite add_members_run in Hadd by done. cbv zeta in Hadd.
    repeat case_match; simplify_eq.
    eexists _, _. split; [by rewrite Hstore|].
    rewrite Hcalls. cbn [trace].
    rewrite !elem_of_app, !elem_of_cons. tauto.
  - intros response w2.
    destruct (add_members_to_group_backend _ _ _ _ _) as [[added|e] w1];
      [|done].
    destruct (remove_members_from_group_backend _ _ _ _ _)
      as [[removed|e] w2'] eqn:Hremove; [|done].
    intros [= <- <-]. by eexists _, _, _.
Qed.
End Properties.

(** ** The handlers on small requests *)

(** The example of the specification: adding 5 and 6 when 5 is a member
    fails for 5, and 6 is not added. *)
Example add_5_6_when_5_is_member :
  add_members_to_group_backend RefStore.req RefStore.user5 10 [5; 6]
    RefStore.w0
  = (Raised {| msg := "User 5 is already a member of this group" |},
     mkWorld RefStore.db0
       [ Call_access_user_group_by_id 10 RefStore.user5;
         Call_user_ids_to_users [5; 6] 1;
         Call_get_direct_memberships_of_users RefStore.staff
           [RefStore.user5; RefStore.user6] ]).
Proof. vm_compute. reflexivity. Qed.

Example add_6_7_succeeds :
  RefStore.membership_rows
    (store (snd (add_members_to_group_backend RefStore.req RefStore.user5 10
                   [6; 7] RefStore.w0)))
  = [(10, 5); (10, 6); (10, 7)].
Proof. vm_compute. reflexivity. Qed.

Example remove_5_6_when_6_is_no_member :
  remove_members_from_group_backend RefStore.req RefStore.user5 10 [5; 6]
    RefStore.w0
  = (Raised {| msg := "There is no member '6' in this user group" |},
     mkWorld RefStore.db0
       [ Call_user_ids_to_users [5; 6] 1;
         Call_access_user_group_by_id 10 RefStore.user5;
         Call_get_user_group_direct_members RefStore.staff ]).
Proof. vm_compute. reflexivity. Qed.

(** Adding and deleting the same non-member in one request succeeds, which
    it could not if the removal ran first. *)
Example add_and_delete_6 :
  update_user_group_backend RefStore.req RefStore.user5 10
    (Some [6]) (Some [6]) RefStore.w0
  = (Ok empty_success,
     mkWorld RefStore.db0
       [ Call_access_user_group_by_id 10 RefStore.user5;
         Call_user_ids_to_users [6] 1;
         Call_get_direct_memberships_of_users RefStore.staff [RefStore.user6];
         Call_bulk_add_members_to_user_group RefStore.staff [6];
         Call_user_ids_to_users [6] 1;
         Call_access_user_group_by_id 10 RefStore.user5;
         Call_get_user_group_direct_members RefStore.staff;
         Call_remove_members_from_user_group RefStore.staff [6] ]).
Proof. vm_compute. reflexivity. Qed.

(** An edit that leaves the name out renames the group to the empty
    string. *)
Example edit_description_only :
  RefStore.group_rows
    (store (snd (edit_user_group RefStore.req RefStore.user5 10
                   None (Some "All staff") RefStore.w0)))
  = [UserGroup.mk 10 EmptyString "All staff" 1].
Proof. vm_compute. reflexivity. Qed.

(** ** The properties at work on the reference store

    Each property above that has premises is applied here to a request
    against [RefStore.db0]: the group [staff] (id 10) of realm 1, whose only
    member is user 5, with users 5, 6 and 7 in the realm. *)

Lemma edit_user_group_no_new_data_witness :
  edit_user_group RefStore.req RefStore.user5 10 None (Some EmptyString)
    RefStore.w0
  = (Raised {| msg := "No new data supplied" |}, RefStore.w0).
Proof. apply edit_user_group_no_new_data; reflexivity. Defined.

Lemma update_user_group_backend_nothing_to_do_witness :
  update_user_group_backend RefStore.req RefStore.user5 10 None (Some [])
    RefStore.w0
  = (Raised {| msg := msg_nothing_to_do |}, RefStore.w0)
  ∧ ∀ add_op remove_op,
      update_user_group_backend_with add_op remove_op RefStore.req
        RefStore.user5 10 None (Some []) RefStore.w0
      = (Raised {| msg := msg_nothing_to_do |}, RefStore.w0).
Proof. apply update_user_group_backend_nothing_to_do; reflexivity. Defined.

Lemma add_members_already_member_witness :
  let existing :=
    sem_get_direct_memberships_of_users RefStore.staff
      [RefStore.user5; RefStore.user6] RefStore.db0 in
  ∃ before offender after,
    [RefStore.user5; RefStore.user6] = before ++ offender :: after
    ∧ Forall (λ u, UserProfile.id u ∉ existing) before
    ∧ UserProfile.id offender ∈ existing
    ∧ add_members_to_group_backend RefStore.req RefStore.user5 10 [6; 5]
        RefStore.w0
      = (Raised {| msg := msg_already_member (UserProfile.id offender) |},
         logged
           [ Call_access_user_group_by_id 10 RefStore.user5;
             Call_user_ids_to_users [6; 5] 1;
             Call_get_direct_memberships_of_users RefStore.staff
               [RefStore.user5; RefStore.user6] ]
           RefStore.w0).
Proof.
  apply (add_members_already_member RefStore.req RefStore.user5 10 [6; 5]
           RefStore.w0 RefStore.staff [RefStore.user5; RefStore.user6]).
  - done.
  - reflexivity.
  - reflexivity.
  - exists RefStore.user5. split; [constructor|]. vm_compute. constructor.
Defined.

Lemma remove_members_no_member_witness :
  (let group_member_ids :=
     sem_get_user_group_direct_members RefStore.staff RefStore.db0 in
   ∃ before offender after,
     [5; 6; 7] = before ++ offender :: after
     ∧ Forall (λ member, member ∈ group_member_ids) before
     ∧ (offender ∉ group_member_ids)
     ∧ remove_members_from_group_backend RefStore.req RefStore.user5 10
         [5; 6; 7] RefStore.w0
       = (Raised {| msg := msg_no_member offender |},
          logged
            [ Call_user_ids_to_users [5; 6; 7] 1;
              Call_access_user_group_by_id 10 RefStore.user5;
              Call_get_user_group_direct_members RefStore.staff ]
            RefStore.w0))
  ∧ remove_members_from_group_backend RefStore.req RefStore.user5 10
      [5; 99] RefStore.w0
    = (Raised {| msg := "Invalid user ID: 99" |},
       logged [Call_user_ids_to_users [5; 99] 1] RefStore.w0).
Proof.
  split.
  - destruct (remove_members_no_member RefStore.req RefStore.user5 10
                [5; 6; 7] RefStore.w0 RefStore.staff) as [Hresolved _].
    + reflexivity.
    + exists 6. split; [by repeat constructor|].
      vm_compute. intros Hin. by apply list_elem_of_singleton in Hin.
    + apply (Hresolved [RefStore.user5; RefStore.user6; RefStore.user7]).
      reflexivity.
  - destruct (remove_members_no_member RefStore.req RefStore.user5 10
                [5; 99] RefStore.w0 RefStore.staff) as [_ Hinvalid].
    + reflexivity.
    + exists 99. split; [by repeat constructor|].
      vm_compute. intros Hin. by apply list_elem_of_singleton in Hin.
    + apply Hinvalid. vm_compute. reflexivity.
Defined.

(** The request [5; 99] against group 10: the group resolves and 99 is not
    among its direct members, yet the call raises the resolver's error for
    99, which is no user of the realm, and not a no-member error. *)
Lemma remove_members_no_member_counterexample :
  sem_access_user_group_by_id 10 RefStore.user5 (store RefStore.w0)
    = Ok RefStore.staff
  ∧ 99 ∈ [5; 99]
  ∧ (99 ∉ sem_get_user_group_direct_members RefStore.staff
            (store RefStore.w0))
  ∧ remove_members_from_group_backend RefStore.req RefStore.user5 10
      [5; 99] RefStore.w0
    = (Raised {| msg := "Invalid user ID: 99" |},
       logged [Call_user_ids_to_users [5; 99] 1] RefStore.w0)
  ∧ ∀ offender,
      fst (remove_members_from_group_backend RefStore.req RefStore.user5 10
             [5; 99] RefStore.w0)
      ≠ Raised {| msg := msg_no_member offender |}.
Proof.
  assert (remove_members_from_group_backend RefStore.req RefStore.user5 10
            [5; 99] RefStore.w0
          = (Raised {| msg := "Invalid user ID: 99" |},
             logged [Call_user_ids_to_users [5; 99] 1] RefStore.w0)) as Hrun.
  { vm_compute. reflexivity. }
  split_and!.
  - reflexivity.
  - by repeat constructor.
  - vm_compute. intros Hin. by apply list_elem_of_singleton in Hin.
  - exact Hrun.
  - intros offender. rewrite Hrun. cbn [fst].
    unfold msg_no_member, gettext. intros [=].
Qed.

Lemma edit_user_group_updates_what_differs_witness :
  edit_user_group RefStore.req RefStore.user5 10
    (Some "staff") (Some "All staff") RefStore.w0
  = (Ok empty_success,
     mkWorld
       (RefStore.mkDb
          [RefStore.user5; RefStore.user6; RefStore.user7]
          [UserGroup.mk 10 "staff" "All staff" 1]
          [(10, 5)])
       [ Call_access_user_group_by_id 10 RefStore.user5;
         Call_do_update_user_group_description RefStore.staff "All staff" ]).
Proof.
  destruct (edit_user_group_updates_what_differs RefStore.req RefStore.user5
              10 (Some "staff") (Some "All staff") RefStore.w0 RefStore.staff)
    as [_ Honly].
  - by right.
  - reflexivity.
  - apply Honly; done.
Defined.

Lemma edit_user_group_omitted_field_is_cleared_witness :
  edit_user_group RefStore.req RefStore.user5 10 None (Some "All staff")
    RefStore.w0
  = (Ok empty_success,
     mkWorld
       (RefStore.mkDb [RefStore.user5; RefStore.user6; RefStore.user7]
          [UserGroup.mk 10 EmptyString "All staff" 1] [(10, 5)])
       [ Call_access_user_group_by_id 10 RefStore.user5;
         Call_do_update_user_group_name RefStore.staff EmptyString;
         Call_do_update_user_group_description RefStore.staff "All staff" ])
  ∧ edit_user_group RefStore.req RefStore.user5 10 (Some "crew") None
      RefStore.w0
    = (Ok empty_success,
       mkWorld
         (RefStore.mkDb [RefStore.user5; RefStore.user6; RefStore.user7]
            [UserGroup.mk 10 "crew" EmptyString 1] [(10, 5)])
         [ Call_access_user_group_by_id 10 RefStore.user5;
           Call_do_update_user_group_name RefStore.staff "crew";
           Call_do_update_user_group_description RefStore.staff EmptyString ]).
Proof.
  destruct (edit_user_group_omitted_field_is_cleared RefStore.req
              RefStore.user5 10 RefStore.w0 RefStore.staff)
    as [Hname Hdescription]; [reflexivity|].
  split.
  - etrans.
    { apply (Hname "All staff"); done. }
    reflexivity.
  - etrans.
    { apply (Hdescription "crew"); done. }
    reflexivity.
Defined.

Lemma add_and_remove_resolve_in_opposite_orders_witness :
  add_members_to_group_backend RefStore.req RefStore.user5 11 [99] RefStore.w0
  = (Raised {| msg := "Invalid user group" |},
     logged [Call_access_user_group_by_id 11 RefStore.user5] RefStore.w0)
  ∧ remove_members_from_group_backend RefStore.req RefStore.user5 11 [99]
      RefStore.w0
    = (Raised {| msg := "Invalid user ID: 99" |},
       logged [Call_user_ids_to_users [99] 1] RefStore.w0).
Proof.
  destruct (add_and_remove_resolve_in_opposite_orders RefStore.req
              RefStore.user5 11 [99] RefStore.w0)
    as (_ & _ & Hadd & Hremove & _ & _); [done|].
  split; [apply Hadd | apply Hremove]; vm_compute; reflexivity.
Defined.

Lemma update_runs_add_before_remove_witness :
  ∃ w2,
    update_user_group_backend RefStore.req RefStore.user5 10
      (Some [6]) (Some [7]) RefStore.w0
    = (Raised {| msg := msg_no_member 6 |}, w2)
    ∧ RefStore.membership_rows (store w2) = [(10, 5); (10, 7)].
Proof.
  destruct (update_runs_add_before_remove RefStore.req RefStore.user5 10
              (Some [6]) (Some [7]) RefStore.w0)
    as (_ & _ & Hremove); [by left|].
  edestruct Hremove as [Hupdate Hstore];
    [vm_compute; reflexivity | vm_compute; reflexivity |].
  eexists. split; [exact Hupdate|]. rewrite Hstore. reflexivity.
Defined.

Lemma update_fails_as_a_whole_without_rollback_witness :
  ∃ w2,
    update_user_group_backend RefStore.req RefStore.user5 10
      (Some [7]) (Some [6]) RefStore.w0
    = (Raised {| msg := msg_no_member 7 |}, w2)
    ∧ RefStore.membership_rows (store w2) = [(10, 5); (10, 6)].
Proof.
  destruct (update_fails_as_a_whole_without_rollback RefStore.req
              RefStore.user5 10 (Some [7]) (Some [6]) RefStore.w0)
    as (_ & Hremove & _); [by left|].
  edestruct Hremove as (Hupdate & Hstore & _);
    [vm_compute; reflexivity | vm_compute; reflexivity |].
  eexists. split; [exact Hupdate|]. rewrite Hstore. reflexivity.
Defined.

(** * Further properties of the handlers *)

Lemma find_None_Forall {A} (f : A → bool) (l : list A) :
  Forall (λ x, f x = false) l → List.find f l = None.
Proof. induction 1 as [|x l Hx _ IH]; [done|]. cbn. by rewrite Hx. Qed.

Lemma find_None_inv {A} (f : A → bool) (l : list A) :
  List.find f l = None → Forall (λ x, f x = false) l.
Proof.
  induction l as [|x l IH]; [by constructor|]. cbn.
  destruct (f x) eqn:Hx; [done|]. intros Hfind. constructor; [done|].
  by apply IH.
Qed.

Section MembershipProperties.
Context {S : Type} `{!Collaborators S}.
Implicit Types (w : World S) (request : HttpRequest)
  (user_profile : UserProfile.t) (user_group_id : Z) (members : list Z).

(** X1.  A non-empty add call whose group and users resolve and none of
    whose resolved users is among the direct memberships found for them
    succeeds: after the three lookups it makes one bulk add, of the ids of
    the resolved users in their order, and returns the empty success
    response. *)
Theorem add_members_adds_resolved_users request user_profile user_group_id
    members w user_group user_profiles :
  members ≠ [] →
  sem_access_user_group_by_id user_group_id user_profile (store w)
    = Ok user_group →
  sem_user_ids_to_users members (UserProfile.realm user_profile) (store w)
    = Ok user_profiles →
  Forall (λ u, UserProfile.id u
               ∉ sem_get_direct_memberships_of_users
                   user_group user_profiles (store w))
         user_profiles →
  let ids := UserProfile.id <$> user_profiles in
  add_members_to_group_backend request user_profile user_group_id members w
  = (Ok empty_success,
     mkWorld
       (sem_bulk_add_members_to_user_group user_group ids (store w))
       (trace w
          ++ [ Call_access_user_group_by_id user_group_id user_profile;
               Call_user_ids_to_users members (UserProfile.realm user_profile);
               Call_get_direct_memberships_of_users user_group user_profiles;
               Call_bulk_add_members_to_user_group user_group ids ])).
Proof.
  intros Hmembers Hgroup Husers Hnew ids.
  rewrite add_members_run by done. cbv zeta. rewrite Hgroup, Husers.
  rewrite find_None_Forall; [done|].
  eapply Forall_impl; [exact Hnew|]. intros u Hu. unfold Py.in_set.
  apply bool_decide_eq_false. by rewrite elem_of_list_to_set.
Qed.

(** X2.  An add call is all or nothing.  When it returns, the response is
    the empty success response; for an empty list the world is untouched,
    and otherwise the group and the users resolved, none of the resolved
    users was among the direct memberships found, and the world is the one
    after the three lookups and a single bulk add of exactly the resolved
    users' ids.  When it raises, the list was not empty, the store is as it
    was and no bulk add is among the calls made. *)
Theorem add_members_all_or_nothing request user_profile user_group_id
    members w :
  match
    add_members_to_group_backend request user_profile user_group_id members w
  with
  | (Ok response, w') =>
    response = empty_success
    ∧ (members = [] → w' = w)
    ∧ (members ≠ [] →
       ∃ user_group user_profiles,
         sem_access_user_group_by_id user_group_id user_profile (store w)
           = Ok user_group
         ∧ sem_user_ids_to_users members (UserProfile.realm user_profile)
             (store w) = Ok user_profiles
         ∧ Forall (λ u, UserProfile.id u
                        ∉ sem_get_direct_memberships_of_users
                            user_group user_profiles (store w))
                  user_profiles
         ∧ let ids := UserProfile.id <$> user_profiles in
           w' = mkWorld
                  (sem_bulk_add_members_to_user_group user_group ids
                     (store w))
                  (trace w
                     ++ [ Call_access_user_group_by_id user_group_id
                            user_profile;
                          Call_user_ids_to_users members
                            (UserProfile.realm user_profile);
                          Call_get_direct_memberships_of_users
                            user_group user_profiles;
                          Call_bulk_add_members_to_user_group
                            user_group ids ]))
  | (Raised e, w') =>
    members ≠ []
    ∧ ∃ calls,
        w' = logged calls w
        ∧ Forall (λ call,
                    ∀ user_group ids,
                      call ≠ Call_bulk_add_members_to_user_group
                               user_group ids)
                 calls
  end.
Proof.
  destruct members as [|member members']; [done|].
  rewrite add_members_run by done. cbv zeta.
  destruct (sem_access_user_group_by_id _ _ _) as [user_group|e] eqn:Hgroup.
  2: { split; [done|]. eexists. split; [done|]. by repeat constructor. }
  destruct (sem_user_ids_to_users _ _ _) as [user_profiles|e] eqn:Husers.
  2: { split; [done|]. eexists. split; [done|]. by repeat constructor. }
  destruct (List.find _ user_profiles) as [u|] eqn:Hfind.
  { split; [done|]. eexists. split; [done|]. by repeat constructor. }
  split_and!; [done..|]. intros _.
  exists user_group, user_profiles. split_and!; [done..| |done].
  apply find_None_inv in Hfind.
  eapply Forall_impl; [exact Hfind|]. intros u Hu. cbn beta in Hu.
  unfold Py.in_set in Hu. apply bool_decide_eq_false in Hu.
  by rewrite elem_of_list_to_set in Hu.
Qed.

(** X3.  A non-empty remove call whose users and group resolve and all of
    whose requested ids are among the group's direct member ids succeeds:
    after the three lookups it makes one bulk removal, of the ids of the
    resolved users, and returns the empty success response. *)
Theorem remove_members_removes_resolved_users request user_profile
    user_group_id members w user_group user_profiles :
  members ≠ [] →
  sem_user_ids_to_users members (UserProfile.realm user_profile) (store w)
    = Ok user_profiles →
  sem_access_user_group_by_id user_group_id user_profile (store w)
    = Ok user_group →
  Forall (λ member,
            member ∈ sem_get_user_group_direct_members user_group (store w))
         members →
  let ids := UserProfile.id <$> user_profiles in
  remove_members_from_group_backend request user_profile user_group_id
    members w
  = (Ok empty_success,
     mkWorld
       (sem_remove_members_from_user_group user_group ids (store w))
       (trace w
          ++ [ Call_user_ids_to_users members (UserProfile.realm user_profile);
               Call_access_user_group_by_id user_group_id user_profile;
               Call_get_user_group_direct_members user_group;
               Call_remove_members_from_user_group user_group ids ])).
Proof.
  intros Hmembers Husers Hgroup Hall ids.
  rewrite remove_members_run by done. cbv zeta. rewrite Husers, Hgroup.
  rewrite find_None_Forall; [done|].
  eapply Forall_impl; [exact Hall|]. intros member Hmember.
  unfold Py.in_seq. apply negb_false_iff. by apply bool_decide_eq_true.
Qed.

(** X4.  A remove call is all or nothing.  When it returns, the response is
    the empty success response; for an empty list the world is untouched,
    and otherwise the users and the group resolved, every requested id was
    among the group's direct member ids, and the world is the one after the
    three lookups and a single bulk removal of exactly the resolved users'
    ids.  When it raises, the list was not empty, the store is as it was and
    no bulk removal is among the calls made. *)
Theorem remove_members_all_or_nothing request user_profile user_group_id
    members w :
  match
    remove_members_from_group_backend request user_profile user_group_id
      members w
  with
  | (Ok response, w') =>
    response = empty_success
    ∧ (members = [] → w' = w)
    ∧ (members ≠ [] →
       ∃ user_group user_profiles,
         sem_user_ids_to_users members (UserProfile.realm user_profile)
           (store w) = Ok user_profiles
         ∧ sem_access_user_group_by_id user_group_id user_profile (store w)
             = Ok user_group
         ∧ Forall (λ member,
                     member ∈ sem_get_user_group_direct_members
                                user_group (store w))
                  members
         ∧ let ids := UserProfile.id <$> user_profiles in
           w' = mkWorld
                  (sem_remove_members_from_user_group user_group ids
                     (store w))
                  (trace w
                     ++ [ Call_user_ids_to_users members
                            (UserProfile.realm user_profile);
                          Call_access_user_group_by_id user_group_id
                            user_profile;
                          Call_get_user_group_direct_members user_group;
                          Call_remove_members_from_user_group
                            user_group ids ]))
  | (Raised e, w') =>
    members ≠ []
    ∧ ∃ calls,
        w' = logged calls w
        ∧ Forall (λ call,
                    ∀ user_group ids,
                      call ≠ Call_remove_members_from_user_group
                               user_group ids)
                 calls
  end.
Proof.
  destruct members as [|member members']; [done|].
  rewrite remove_members_run by done. cbv zeta.
  destruct (sem_user_ids_to_users _ _ _) as [user_profiles|e] eqn:Husers.
  2: { split; [done|]. eexists. split; [done|]. by repeat constructor. }
  destruct (sem_access_user_group_by_id _ _ _) as [user_group|e] eqn:Hgroup.
  2: { split; [done|]. eexists. split; [done|]. by repeat constructor. }
  destruct (List.find _ (member :: members')) as [offender|] eqn:Hfind.
  { split; [done|]. eexists. split; [done|]. by repeat constructor. }
  split_and!; [done..|]. intros _.
  exists user_group, user_profiles. split_and!; [done..| |done].
  apply find_None_inv in Hfind.
  eapply Forall_impl; [exact Hfind|]. intros m Hm. cbn beta in Hm.
  unfold Py.in_seq in Hm. apply negb_false_iff in Hm.
  by apply bool_decide_eq_true in Hm.
Qed.

(** X5.  The error of a failing second lookup wins over the membership
    check.  In a non-empty add call whose group resolves, a failing user
    resolution ends the call with the resolver's error after two calls; in a
    non-empty remove call whose users resolve, a failing group lookup ends
    the call with the group's error after two calls.  Neither asks for the
    memberships, whoever is or is not a member. *)
Theorem second_lookup_error_wins request user_profile user_group_id
    members w :
  members ≠ [] →
  let access := Call_access_user_group_by_id user_group_id user_profile in
  let resolve :=
    Call_user_ids_to_users members (UserProfile.realm user_profile) in
  (∀ user_group e,
     sem_access_user_group_by_id user_group_id user_profile (store w)
       = Ok user_group →
     sem_user_ids_to_users members (UserProfile.realm user_profile) (store w)
       = Raised e →
     add_members_to_group_backend request user_profile user_group_id
       members w
     = (Raised e, logged [access; resolve] w))
  ∧ (∀ user_profiles e,
       sem_user_ids_to_users members (UserProfile.realm user_profile)
         (store w) = Ok user_profiles →
       sem_access_user_group_by_id user_group_id user_profile (store w)
         = Raised e →
       remove_members_from_group_backend request user_profile user_group_id
         members w
       = (Raised e, logged [resolve; access] w)).
Proof.
  intros Hmembers access resolve. split.
  - intros user_group e Hgroup Husers.
    rewrite add_members_run by done. cbv zeta. by rewrite Hgroup, Husers.
  - intros user_profiles e Husers Hgroup.
    rewrite remove_members_run by done. cbv zeta. by rewrite Husers, Hgroup.
Qed.
End MembershipProperties.

Section EditProperties.
Context {S : Type} `{!Collaborators S}.
Implicit Types (w : World S) (request : HttpRequest)
  (user_profile : UserProfile.t) (user_group_id : Z).

(** X6.  An edit request with new data whose group does not resolve raises
    the group lookup's error: the lookup is the only call made, and neither
    the name nor the description is updated. *)
Theorem edit_user_group_unresolved_group request user_profile user_group_id
    name_var description_var w e :
  REQ EmptyString name_var ≠ EmptyString
  ∨ REQ EmptyString description_var ≠ EmptyString →
  sem_access_user_group_by_id user_group_id user_profile (store w)
    = Raised e →
  edit_user_group request user_profile user_group_id name_var description_var w
  = (Raised e,
     logged [Call_access_user_group_by_id user_group_id user_profile] w).
Proof.
  intros Hsome Hgroup. unfold edit_user_group.
  rewrite (or_str_truthy _ _ Hsome).
  unfold bind at 1, access_user_group_by_id, query. by rewrite Hgroup.
Qed.

(** X7.  An edit request asks for its group exactly when it carries a
    non-empty name or a non-empty description.  With one of them non-empty
    the first call it makes is the group lookup.  With both empty it makes
    no call at all: it raises and the world, store and log, is the one it
    started in. *)
Theorem edit_user_group_looks_up_iff_new_data request user_profile
    user_group_id name_var description_var w :
  let name := REQ EmptyString name_var in
  let description := REQ EmptyString description_var in
  let edited :=
    edit_user_group request user_profile user_group_id
      name_var description_var w in
  (name ≠ EmptyString ∨ description ≠ EmptyString
   ↔ ∃ rest,
       trace (snd edited)
       = trace w
           ++ Call_access_user_group_by_id user_group_id user_profile :: rest)
  ∧ (name = EmptyString ∧ description = EmptyString
     ↔ edited = (Raised {| msg := "No new data supplied" |}, w)
       ∧ trace (snd edited) = trace w).
Proof.
  intros name description edited.
  assert (name ≠ EmptyString ∨ description ≠ EmptyString →
          ∃ rest,
            trace (snd edited)
            = trace w
                ++ Call_access_user_group_by_id user_group_id user_profile
                   :: rest) as Hlookup.
  { intros Hsome. subst edited. unfold edit_user_group.
    fold name description. rewrite (or_str_truthy _ _ Hsome).
    unfold bind at 1, access_user_group_by_id, query.
    destruct (sem_access_user_group_by_id _ _ _) as [user_group|e];
      [|by exists []].
    rewrite !str_ne_decide.
    destruct (decide (name = UserGroup.name user_group));
      destruct (decide (description = UserGroup.description user_group));
      run_updates; rewrite <- ?app_assoc; by eexists. }
  assert (name = EmptyString ∧ description = EmptyString →
          edited = (Raised {| msg := "No new data supplied" |}, w))
    as Hnothing.
  { intros [Hn Hd]. subst edited. unfold edit_user_group.
    fold name description. by rewrite Hn, Hd. }
  assert (∀ rest,
            trace w
            ≠ trace w
                ++ Call_access_user_group_by_id user_group_id user_profile
                   :: rest) as Hgrows.
  { intros rest Heq. apply (f_equal length) in Heq.
    rewrite length_app in Heq. cbn in Heq. lia. }
  split; split.
  - exact Hlookup.
  - intros [rest Htrace].
    destruct (decide (name = EmptyString)) as [Hn|]; [|by left].
    destruct (decide (description = EmptyString)) as [Hd|]; [|by right].
    rewrite (Hnothing (conj Hn Hd)) in Htrace. by apply Hgrows in Htrace.
  - intros Hboth. by rewrite (Hnothing Hboth).
  - intros [_ Htrace].
    destruct (decide (name = EmptyString)) as [Hn|Hn].
    + destruct (decide (description = EmptyString)) as [Hd|Hd]; [done|].
      destruct Hlookup as [rest Hrest]; [by right|].
      rewrite Htrace in Hrest. by apply Hgrows in Hrest.
    + destruct Hlookup as [rest Hrest]; [by left|].
      rewrite Htrace in Hrest. by apply Hgrows in Hrest.
Qed.
End EditProperties.

Section UpdateProperties.
Context {S : Type} `{!Collaborators S}.
Implicit Types (w : World S) (request : HttpRequest)
  (user_profile : UserProfile.t) (user_group_id : Z).

(** Each sub-operation answers a success with the empty success response. *)
Lemma add_members_ok_response request user_profile user_group_id members
    w response w' :
  add_members_to_group_backend request user_profile user_group_id members w
    = (Ok response, w') →
  response = empty_success.
Proof.
  destruct members as [|member members']; [by intros [= <- <-]|].
  rewrite add_members_run by done. cbv zeta.
  repeat case_match; by intros [= <- <-].
Qed.

Lemma remove_members_ok_response request user_profile user_group_id members
    w response w' :
  remove_members_from_group_backend request user_profile user_group_id
    members w = (Ok response, w') →
  response = empty_success.
Proof.
  destruct members as [|member members']; [by intros [= <- <-]|].
  rewrite remove_members_run by done. cbv zeta.
  repeat case_match; by intros [= <- <-].
Qed.

Lemma merged_empty_success :
  {| status_code := 200; content := (∅ : JsonDict) ∪ (∅ ∪ ∅) |}
  = empty_success.
Proof. unfold empty_success. by rewrite !(left_id_L ∅ (∪)). Qed.

(** X8.  A membership update with one empty list is the other
    sub-operation alone.  With a non-empty add list and an empty delete list
    it has the outcome, the store and the log of the add call; with an empty
    add list and a non-empty delete list, those of the remove call. *)
Theorem update_with_one_empty_list request user_profile user_group_id
    delete_var add_var w :
  let delete := REQ [] delete_var in
  let add := REQ [] add_var in
  (add ≠ [] → delete = [] →
   update_user_group_backend request user_profile user_group_id
     delete_var add_var w
   = add_members_to_group_backend request user_profile user_group_id add w)
  ∧ (add = [] → delete ≠ [] →
     update_user_group_backend request user_profile user_group_id
       delete_var add_var w
     = remove_members_from_group_backend request user_profile user_group_id
         delete w).
Proof.
  intros delete add. split.
  - intros Hadd Hdelete. unfold update_user_group_backend.
    rewrite update_user_group_backend_with_run by by left.
    fold add delete. rewrite Hdelete.
    destruct (add_members_to_group_backend _ _ _ add w)
      as [[added|e] w1] eqn:Hrun; [|done].
    apply add_members_ok_response in Hrun as ->. cbn.
    by rewrite merged_empty_success.
  - intros Hadd Hdelete. unfold update_user_group_backend.
    rewrite update_user_group_backend_with_run by by right.
    fold add delete. rewrite Hadd. cbn.
    destruct (remove_members_from_group_backend _ _ _ delete w)
      as [[removed|e] w2] eqn:Hrun; [|done].
    apply remove_members_ok_response in Hrun as ->. cbn.
    by rewrite merged_empty_success.
Qed.

(** X9.  When both sub-operations of a membership update return, the
    update returns the empty success response in the world the remove left:
    the two responses merge into the empty object. *)
Theorem update_success_is_empty_success request user_profile user_group_id
    delete_var add_var w added w1 removed w2 :
  let delete := REQ [] delete_var in
  let add := REQ [] add_var in
  add ≠ [] ∨ delete ≠ [] →
  add_members_to_group_backend request user_profile user_group_id add w
    = (Ok added, w1) →
  remove_members_from_group_backend request user_profile user_group_id
    delete w1 = (Ok removed, w2) →
  update_user_group_backend request user_profile user_group_id
    delete_var add_var w
  = (Ok empty_success, w2).
Proof.
  intros delete add Hsome Hadd Hremove. unfold update_user_group_backend.
  rewrite update_user_group_backend_with_run by done.
  fold add delete. rewrite Hadd, Hremove.
  apply add_members_ok_response in Hadd as ->.
  apply remove_members_ok_response in Hremove as ->. cbn.
  by rewrite merged_empty_success.
Qed.

(** X12.  Removing what was just added.  Let a non-empty add call succeed,
    and let the store it leaves resolve the same users and the same group
    and list every requested id among the group's direct members.  Then the
    remove call with the same list succeeds in that world, and its bulk
    removal is of exactly the ids the bulk add was given. *)
Theorem add_then_remove_same_members request user_profile user_group_id
    members w user_group user_profiles :
  members ≠ [] →
  sem_access_user_group_by_id user_group_id user_profile (store w)
    = Ok user_group →
  sem_user_ids_to_users members (UserProfile.realm user_profile) (store w)
    = Ok user_profiles →
  Forall (λ u, UserProfile.id u
               ∉ sem_get_direct_memberships_of_users
                   user_group user_profiles (store w))
         user_profiles →
  let ids := UserProfile.id <$> user_profiles in
  let added := sem_bulk_add_members_to_user_group user_group ids (store w) in
  sem_user_ids_to_users members (UserProfile.realm user_profile) added
    = Ok user_profiles →
  sem_access_user_group_by_id user_group_id user_profile added
    = Ok user_group →
  Forall (λ member,
            member ∈ sem_get_user_group_direct_members user_group added)
         members →
  ∃ w1,
    add_members_to_group_backend request user_profile user_group_id members w
      = (Ok empty_success, w1)
    ∧ store w1 = added
    ∧ remove_members_from_group_backend request user_profile user_group_id
        members w1
      = (Ok empty_success,
         mkWorld
           (sem_remove_members_from_user_group user_group ids added)
           (trace w1
              ++ [ Call_user_ids_to_users members
                     (UserProfile.realm user_profile);
                   Call_access_user_group_by_id user_group_id user_profile;
                   Call_get_user_group_direct_members user_group;
                   Call_remove_members_from_user_group user_group ids ])).
Proof.
  intros Hmembers Hgroup Husers Hnew ids added Husers' Hgroup' Hall.
  eexists. split_and!.
  - rewrite add_members_run by done. cbv zeta. rewrite Hgroup, Husers.
    rewrite find_None_Forall; [done|].
    eapply Forall_impl; [exact Hnew|]. intros u Hu. unfold Py.in_set.
    apply bool_decide_eq_false. by rewrite elem_of_list_to_set.
  - done.
  - rewrite remove_members_run by done. cbv zeta. cbn [store].
    fold ids. fold added. rewrite Husers', Hgroup'.
    rewrite find_None_Forall; [done|].
    eapply Forall_impl; [exact Hall|]. intros member Hmember.
    unfold Py.in_seq. apply negb_false_iff. by apply bool_decide_eq_true.
Qed.
End UpdateProperties.

(** ** The error messages *)

Lemma list_ascii_of_string_app (s t : string) :
  String.list_ascii_of_string (s +:+ t)
  = String.list_ascii_of_string s ++ String.list_ascii_of_string t.
Proof. induction s as [|c s IH]; [done|]. simpl. f_equal. exact IH. Qed.

Lemma string_app_inv_tail (s1 s2 t : string) :
  s1 +:+ t = s2 +:+ t → s1 = s2.
Proof.
  intros Heq. apply (f_equal String.list_ascii_of_string) in Heq.
  rewrite !list_ascii_of_string_app in Heq. apply app_inv_tail in Heq.
  apply (f_equal String.string_of_list_ascii) in Heq.
  by rewrite !String.string_of_list_ascii_of_string in Heq.
Qed.

(** X10.  The messages of the two membership errors name their id: two
    already-a-member messages are equal only for the same user id, two
    no-member messages only for the same id, and an already-a-member message
    is never a no-member message. *)
Theorem membership_error_messages_name_the_id (a b : Z) :
  (msg_already_member a = msg_already_member b ↔ a = b)
  ∧ (msg_no_member a = msg_no_member b ↔ a = b)
  ∧ msg_already_member a ≠ msg_no_member b.
Proof.
  unfold msg_already_member, msg_no_member, gettext, Py.str_of_int.
  split_and!.
  - split; [|by intros ->]. intros Heq.
    apply (inj (String.app "User ")) in Heq.
    apply string_app_inv_tail in Heq. by apply (inj pretty) in Heq.
  - split; [|by intros ->]. intros Heq.
    apply (inj (String.app "There is no member '")) in Heq.
    apply string_app_inv_tail in Heq. by apply (inj pretty) in Heq.
  - cbn. discriminate.
Qed.

(** ** Creating a group *)

Section GroupProperties.
Context {S : Type} `{!Collaborators S, !GroupActions S}.
Implicit Types (w : World S) (request : HttpRequest)
  (user_profile : UserProfile.t).

(** X11.  Creating a group resolves the member ids first, also when the
    list is left out and so empty.  If the resolution fails, the request
    raises the resolver's error and the store is as it was, whatever the
    creation would have done.  If it succeeds, the creation is given the
    caller's realm, the name, the resolved users and the description; its
    error is the request's error, and when it returns the request returns
    the empty success response; the store is the one the creation left. *)
Theorem add_user_group_resolves_before_creating request user_profile name
    members_var description w :
  let members := REQ [] members_var in
  let realm := UserProfile.realm user_profile in
  let resolved := logged [Call_user_ids_to_users members realm] w in
  (∀ e,
     sem_user_ids_to_users members realm (store w) = Raised e →
     add_user_group request user_profile name members_var description w
     = (Raised e, resolved))
  ∧ (∀ user_profiles,
       sem_user_ids_to_users members realm (store w) = Ok user_profiles →
       let created :=
         sem_check_add_user_group realm name user_profiles description
           (store w) in
       add_user_group request user_profile name members_var description w
       = (match fst created with
          | Ok _ => Ok empty_success
          | Raised e => Raised e
          end,
          mkWorld (snd created) (trace resolved))).
Proof.
  intros members realm resolved. unfold add_user_group.
  fold members realm. split.
  - intros e Husers. unfold bind at 1, user_ids_to_users, query.
    by rewrite Husers.
  - intros user_profiles Husers. cbv zeta.
    unfold bind at 1, user_ids_to_users, query. rewrite Husers.
    unfold bind, check_add_user_group, action, json_success, ret.
    cbn [store trace log logged].
    by destruct (fst (sem_check_add_user_group _ _ _ _ _)).
Qed.
End GroupProperties.

(** ** The further properties at work on the reference store *)

Lemma add_members_adds_resolved_users_witness :
  add_members_to_group_backend RefStore.req RefStore.user5 10 [6; 7]
    RefStore.w0
  = (Ok empty_success,
     mkWorld
       (RefStore.mkDb [RefStore.user5; RefStore.user6; RefStore.user7]
          [RefStore.staff] [(10, 5); (10, 6); (10, 7)])
       [ Call_access_user_group_by_id 10 RefStore.user5;
         Call_user_ids_to_users [6; 7] 1;
         Call_get_direct_memberships_of_users RefStore.staff
           [RefStore.user6; RefStore.user7];
         Call_bulk_add_members_to_user_group RefStore.staff [6; 7] ]).
Proof.
  etrans.
  { apply (add_members_adds_resolved_users RefStore.req RefStore.user5 10
             [6; 7] RefStore.w0 RefStore.staff
             [RefStore.user6; RefStore.user7]).
    - done.
    - reflexivity.
    - reflexivity.
    - repeat constructor; vm_compute; apply not_elem_of_nil. }
  reflexivity.
Defined.

Lemma remove_members_removes_resolved_users_witness :
  remove_members_from_group_backend RefStore.req RefStore.user5 10 [5]
    RefStore.w0
  = (Ok empty_success,
     mkWorld
       (RefStore.mkDb [RefStore.user5; RefStore.user6; RefStore.user7]
          [RefStore.staff] [])
       [ Call_user_ids_to_users [5] 1;
         Call_access_user_group_by_id 10 RefStore.user5;
         Call_get_user_group_direct_members RefStore.staff;
         Call_remove_members_from_user_group RefStore.staff [5] ]).
Proof.
  etrans.
  { apply (remove_members_removes_resolved_users RefStore.req RefStore.user5
             10 [5] RefStore.w0 RefStore.staff [RefStore.user5]).
    - done.
    - reflexivity.
    - reflexivity.
    - repeat constructor. }
  reflexivity.
Defined.

Lemma second_lookup_error_wins_witness :
  add_members_to_group_backend RefStore.req RefStore.user5 10 [5; 99]
    RefStore.w0
  = (Raised {| msg := "Invalid user ID: 99" |},
     logged [ Call_access_user_group_by_id 10 RefStore.user5;
              Call_user_ids_to_users [5; 99] 1 ] RefStore.w0)
  ∧ remove_members_from_group_backend RefStore.req RefStore.user5 11 [6]
      RefStore.w0
    = (Raised {| msg := "Invalid user group" |},
       logged [ Call_user_ids_to_users [6] 1;
                Call_access_user_group_by_id 11 RefStore.user5 ] RefStore.w0).
Proof.
  split.
  - destruct (second_lookup_error_wins RefStore.req RefStore.user5 10
                [5; 99] RefStore.w0) as [Hadd _]; [done|].
    apply (Hadd RefStore.staff); vm_compute; reflexivity.
  - destruct (second_lookup_error_wins RefStore.req RefStore.user5 11
                [6] RefStore.w0) as [_ Hremove]; [done|].
    apply (Hremove [RefStore.user6]); vm_compute; reflexivity.
Defined.

Lemma edit_user_group_unresolved_group_witness :
  edit_user_group RefStore.req RefStore.user5 11 (Some "crew") None
    RefStore.w0
  = (Raised {| msg := "Invalid user group" |},
     logged [Call_access_user_group_by_id 11 RefStore.user5] RefStore.w0).
Proof.
  apply edit_user_group_unresolved_group; [by left | reflexivity].
Defined.

Lemma update_with_one_empty_list_witness :
  update_user_group_backend RefStore.req RefStore.user5 10 None (Some [6])
    RefStore.w0
  = add_members_to_group_backend RefStore.req RefStore.user5 10 [6]
      RefStore.w0
  ∧ update_user_group_backend RefStore.req RefStore.user5 10 (Some [5]) None
      RefStore.w0
    = remove_members_from_group_backend RefStore.req RefStore.user5 10 [5]
        RefStore.w0.
Proof.
  split.
  - by apply (update_with_one_empty_list RefStore.req RefStore.user5 10
                None (Some [6]) RefStore.w0).
  - by apply (update_with_one_empty_list RefStore.req RefStore.user5 10
                (Some [5]) None RefStore.w0).
Defined.

Lemma update_success_is_empty_success_witness :
  ∃ w2,
    update_user_group_backend RefStore.req RefStore.user5 10
      (Some [5]) (Some [6]) RefStore.w0
    = (Ok empty_success, w2)
    ∧ RefStore.membership_rows (store w2) = [(10, 6)].
Proof.
  eexists. split.
  - eapply (update_success_is_empty_success RefStore.req RefStore.user5 10
              (Some [5]) (Some [6]) RefStore.w0);
      [by left | vm_compute; reflexivity | vm_compute; reflexivity].
  - reflexivity.
Defined.

Lemma add_then_remove_same_members_witness :
  ∃ w1,
    add_members_to_group_backend RefStore.req RefStore.user5 10 [6; 7]
      RefStore.w0 = (Ok empty_success, w1)
    ∧ RefStore.membership_rows (store w1) = [(10, 5); (10, 6); (10, 7)]
    ∧ RefStore.membership_rows
        (store (snd (remove_members_from_group_backend RefStore.req
                       RefStore.user5 10 [6; 7] w1)))
      = [(10, 5)].
Proof.
  destruct (add_then_remove_same_members RefStore.req RefStore.user5 10
              [6; 7] RefStore.w0 RefStore.staff
              [RefStore.user6; RefStore.user7])
    as (w1 & Hadd & Hstore & Hremove).
  - done.
  - reflexivity.
  - reflexivity.
  - repeat constructor; vm_compute; apply not_elem_of_nil.
  - reflexivity.
  - reflexivity.
  - vm_compute. repeat constructor.
  - exists w1. split; [exact Hadd|]. rewrite Hremove, Hstore.
    split; reflexivity.
Defined.
